(** * The MCP tool wrapper of the AIQ toolkit

    A shallow embedding of [src/aiq/tool/mcp/mcp_tool.py] (the configuration
    class [MCPToolConfig], the generator [mcp_tool] and the closures
    [_convert_from_str] and [_response_fn] it builds) and of the server
    configuration of [src/aiq/servers/mcp_server.py].

    Python's exceptions are an explicit [outcome]; the calls the code makes
    on its collaborators (the builder, the MCP client, pydantic, the logger)
    are recorded in a trace, so that statements about what is called, with
    what, and in which order can be made. *)

From Stdlib Require Import String List Bool ZArith Lia DecimalString.
Import ListNotations.
Open Scope string_scope.

(** ** Python values, truthiness and [str] *)

Inductive PyVal : Type :=
| VNone
| VBool (b : bool)
| VInt (z : Z)
| VStr (s : string).

(** A [dict] with string keys, in insertion order. *)
Definition Dict : Type := list (string * PyVal).

(** [x is not None] *)
Definition is_not_None {A : Type} (x : option A) : bool :=
  match x with
  | Some _ => true
  | None => false
  end.

(** [bool(x)] for [x : str | None]: [None] and the empty string are falsy. *)
Definition truthy_str (x : option string) : bool :=
  match x with
  | Some EmptyString => false
  | Some _ => true
  | None => false
  end.

(** [bool(x)] for [x : list | None]: [None] and the empty list are falsy. *)
Definition truthy_list {A : Type} (x : option (list A)) : bool :=
  match x with
  | Some (_ :: _) => true
  | _ => false
  end.

(** [str(x)] for [x : str | None], as an f-string interpolates it. *)
Definition py_str (x : option string) : string :=
  match x with
  | Some s => s
  | None => "None"
  end.

(** [sep.join(l)] *)
Fixpoint join (sep : string) (l : list string) : string :=
  match l with
  | [] => ""
  | [x] => x
  | x :: rest => x ++ sep ++ join sep rest
  end.

(** ** Exceptions *)

(** Modelled from the spec: the error classes of the MCP client
    ([aiq.tool.mcp.mcp_client], which is not among the sources) are the
    spec's [TransportError], [NotFoundError] and [RemoteToolError].
    [ValueError] is what the configuration code raises (the spec's
    [ConfigError]); [ValidationError] is pydantic's.  All of these derive
    from Python's [Exception]; [CancelledError] and [KeyboardInterrupt]
    derive from [BaseException] only. *)
Inductive ExnClass : Type :=
| ValueError
| ValidationError
| RemoteToolError
| TransportError
| NotFoundError
| CancelledError
| KeyboardInterrupt.

(** [issubclass(c, Exception)] *)
Definition derives_Exception (c : ExnClass) : bool :=
  match c with
  | CancelledError | KeyboardInterrupt => false
  | _ => true
  end.

(** An exception object: its class and what [str(e)] returns. *)
Record Exn : Type := mkExn {
  exn_class : ExnClass;
  exn_str : string
}.

Inductive outcome (A : Type) : Type :=
| Return (a : A)
| Raise (e : Exn).
Arguments Return {A} a.
Arguments Raise {A} e.

Definition raises {A : Type} (o : outcome A) : bool :=
  match o with
  | Return _ => false
  | Raise _ => true
  end.

(** ** [MCPServerConfig] (src/aiq/servers/mcp_server.py) *)

Module MCPServerConfig.

(** [server_type] is the attribute [mcp_tool] reads on a referenced server;
    this class does not declare it, so it comes from its base class
    [ServerBaseConfig]. *)
Record t : Type := mk {
  server_type : string;
  transport_type : string;
  url : option string;
  command : option string;
  args : option (list string);
  env : option (list (string * string))
}.

Definition model_post_init (self : t) : outcome unit :=
  if transport_type self =? "stdio" then
    if is_not_None (url self) then
      Raise (mkExn ValueError "url should not be set when using stdio transport type")
    else if negb (truthy_str (command self)) then
      Raise (mkExn ValueError "command is required when using stdio transport type")
    else Return tt
  else if (transport_type self =? "streamable-http") || (transport_type self =? "sse") then
    if is_not_None (command self) || is_not_None (args self) || is_not_None (env self) then
      Raise (mkExn ValueError
        "command, args, and env should not be set when using sse/streamable-http transport type")
    else if negb (truthy_str (url self)) then
      Raise (mkExn ValueError "url is required when using sse/streamable-http transport type")
    else Return tt
  else Return tt.

End MCPServerConfig.

(** ** [MCPToolConfig] (src/aiq/tool/mcp/mcp_tool.py) *)

Module MCPToolConfig.

Record t : Type := mk {
  server : option string;
  url : option string;
  transport_type : string;
  command : option string;
  args : option (list string);
  env : option (list (string * string));
  mcp_tool_name : string;
  description : option string;
  return_exception : bool
}.

Definition model_post_init (self : t) : outcome unit :=
  let using_server_ref := is_not_None (server self) in
  let using_direct_config := is_not_None (url self) || is_not_None (command self) in
  if negb using_server_ref && negb using_direct_config then
    Raise (mkExn ValueError "Either server reference or direct configuration must be provided")
  else if using_server_ref && using_direct_config then
    Raise (mkExn ValueError "Cannot use both server reference and direct configuration")
  else if using_server_ref then
    if is_not_None (url self) || is_not_None (command self)
       || is_not_None (args self) || is_not_None (env self) then
      Raise (mkExn ValueError
        "Direct configuration fields should not be set when using server reference")
    else Return tt
  else
    if transport_type self =? "stdio" then
      if is_not_None (url self) then
        Raise (mkExn ValueError "url should not be set when using stdio transport type")
      else if negb (truthy_str (command self)) then
        Raise (mkExn ValueError "command is required when using stdio transport type")
      else Return tt
    else if (transport_type self =? "streamable-http") || (transport_type self =? "sse") then
      if is_not_None (command self) || is_not_None (args self) || is_not_None (env self) then
        Raise (mkExn ValueError
          "command, args, and env should not be set when using sse/streamable-http transport type")
      else if negb (truthy_str (url self)) then
        Raise (mkExn ValueError "url is required when using sse/streamable-http transport type")
      else Return tt
    else Return tt.

(** The keyword arguments the class is constructed from: a field that is
    left out is [None] here. *)
Record fields : Type := mkFields {
  f_server : option string;
  f_url : option string;
  f_transport_type : option string;
  f_command : option string;
  f_args : option (list string);
  f_env : option (list (string * string));
  f_mcp_tool_name : option string;
  f_description : option string;
  f_return_exception : option bool
}.

(** [Literal["sse", "stdio", "streamable-http"]] *)
Definition transport_literal (s : string) : bool :=
  (s =? "sse") || (s =? "stdio") || (s =? "streamable-http").

(** Construction: every [Field(default=...)] fills its default,
    [mcp_tool_name] is required, [transport_type] is checked against its
    literal type, and then [model_post_init] runs. *)
Definition init (kw : fields) : outcome t :=
  match f_mcp_tool_name kw with
  | None => Raise (mkExn ValidationError "mcp_tool_name: Field required")
  | Some tool_name =>
    let tt_ := match f_transport_type kw with Some s => s | None => "sse" end in
    if negb (transport_literal tt_) then
      Raise (mkExn ValidationError
        "transport_type: Input should be 'sse', 'stdio' or 'streamable-http'")
    else
      let self := {|
        server := f_server kw;
        url := f_url kw;
        transport_type := tt_;
        command := f_command kw;
        args := f_args kw;
        env := f_env kw;
        mcp_tool_name := tool_name;
        description := f_description kw;
        return_exception :=
          match f_return_exception kw with Some b => b | None => true end
      |} in
      match model_post_init self with
      | Return _ => Return self
      | Raise e => Raise e
      end
  end.

End MCPToolConfig.

(** ** The trace monad

    A computation yields the calls it made on its collaborators, in order,
    and either returns or raises. *)

Section Bridge.

(** The class pydantic builds for a tool's input schema ([Schema]) and its
    instances ([Model]). *)
Context {Schema Model : Type}.

(** The MCP client's view of one remote tool.  [MCPToolClient] is defined
    in [aiq.tool.mcp.mcp_client]; the wrapper reads these three
    attributes. *)
Record MCPToolClient : Type := mkTool {
  name : string;
  tool_description : string;
  input_schema : Schema
}.

(** The three client classes [mcp_tool] chooses from, with the arguments
    it constructs them with. *)
Inductive Client : Type :=
| MCPStdioClient (command : option string) (args : option (list string))
                 (env : option (list (string * string)))
| MCPStreamableHTTPClient (url : string)
| MCPSSEClient (url : string).

Inductive Event : Type :=
| EvGetServer (ref : string)
| EvEnter (client : Client)
| EvExit (client : Client)
| EvGetTool (tool_name : string)
| EvSetDescription (text : string)
| EvLogInfo (tool_name source : string)
| EvValidate (schema : Schema) (data : Dict)
| EvACall (tool : MCPToolClient) (arguments : Dict)
| EvLogWarning (tool_name : string) (serialized : bool) (input : Dict).

Definition M (A : Type) : Type := (list Event * outcome A)%type.

Definition ret {A : Type} (a : A) : M A := ([], Return a).

Definition raise {A : Type} (e : Exn) : M A := ([], Raise e).

Definition bind {A B : Type} (m : M A) (k : A -> M B) : M B :=
  match m with
  | (t, Return a) => let (t', r) := k a in ((t ++ t')%list, r)
  | (t, Raise e) => (t, Raise e)
  end.

(** One call on a collaborator: the event, then the collaborator's
    answer. *)
Definition call {A : Type} (ev : Event) (answer : outcome A) : M A :=
  ([ev], answer).

(** [try: body / except Exception as e: handler e].  An exception that
    does not derive from [Exception] passes through. *)
Definition try_except_Exception {A : Type} (body : M A) (handler : Exn -> M A) : M A :=
  match body with
  | (t, Return a) => (t, Return a)
  | (t, Raise e) =>
    if derives_Exception (exn_class e) then
      let (t', r) := handler e in ((t ++ t')%list, r)
    else (t, Raise e)
  end.

(** [async with client: body]: the client is entered, and left again
    when the body raises. *)
Definition async_with {A : Type} (client : Client) (enter : outcome unit)
    (body : M A) : M A :=
  bind (call (EvEnter client) enter) (fun _ =>
    match body with
    | (t, Return a) => (t, Return a)
    | (t, Raise e) => ((t ++ [EvExit client])%list, Raise e)
    end).

End Bridge.

Arguments MCPToolClient : clear implicits.
Arguments Event : clear implicits.
Arguments M : clear implicits.

Declare Scope trace_scope.
Delimit Scope trace_scope with trace.
Notation "x <- m ;; k" := (bind m (fun x => k))
  (at level 100, m at next level, right associativity) : trace_scope.
Notation "m ;; k" := (bind m (fun _ => k))
  (at level 100, right associativity) : trace_scope.

Local Open Scope trace_scope.

(** ** Collaborators *)

(** What the wrapper uses of pydantic on the schema class and on its
    instances: [model_validate], [model_validate_json], [model_dump], and
    the truth value of an instance ([if tool_input:]). *)
Class Pydantic (Schema Model : Type) : Type := {
  model_validate : Schema -> Dict -> outcome Model;
  model_validate_json : Schema -> string -> outcome Model;
  model_dump : Model -> Dict;
  py_bool : Model -> bool
}.

(** What the wrapper calls outside this module: [builder.get_server], and
    on the MCP client [__aenter__], [get_tool] and the tool's [acall]. *)
Record Remote (Schema : Type) : Type := mkRemote {
  get_server : string -> outcome MCPServerConfig.t;
  aenter : Client -> outcome unit;
  get_tool : Client -> string -> outcome (MCPToolClient Schema);
  acall : MCPToolClient Schema -> Dict -> outcome string
}.
Arguments get_server {Schema} _ _.
Arguments aenter {Schema} _ _.
Arguments get_tool {Schema} _ _ _.
Arguments acall {Schema} _ _ _.

(** What [FunctionInfo.create] is given. *)
Record FunctionInfo (Schema Model : Type) : Type := mkFunctionInfo {
  single_fn : option Model -> Dict -> M Schema string;
  fi_description : string;
  fi_input_schema : Schema;
  converters : list (string -> outcome Model)
}.
Arguments mkFunctionInfo {Schema Model} _ _ _ _.
Arguments single_fn {Schema Model} _ _ _.
Arguments fi_description {Schema Model} _.
Arguments fi_input_schema {Schema Model} _.
Arguments converters {Schema Model} _.

(** Modelled from the spec: [MCPToolClient.set_description] lives in
    [aiq.tool.mcp.mcp_client], which is not among the sources; the spec has
    it override the exposed description only, never the schema. *)
Definition set_description {Schema : Type} (tool : MCPToolClient Schema)
    (description : string) : MCPToolClient Schema :=
  {| name := name tool;
     tool_description := description;
     input_schema := input_schema tool |}.

(** ** [mcp_tool] and its closures *)

Section Wrapper.

Context {Schema Model : Type} `{Pydantic Schema Model}.
Variable remote : Remote Schema.

(** [if tool_input:] for [tool_input: tool.input_schema | None] *)
Definition truthy_input (tool_input : option Model) : bool :=
  match tool_input with
  | Some m => py_bool m
  | None => false
  end.

Definition _convert_from_str (tool : MCPToolClient Schema) (input_str : string)
    : outcome Model :=
  model_validate_json (input_schema tool) input_str.

(** The body of the [try] in [_response_fn]. *)
Definition response_try (tool : MCPToolClient Schema)
    (tool_input : option Model) (kwargs : Dict) : M Schema string :=
  match tool_input with
  | Some m =>
    if py_bool m then
      let args := model_dump m in
      call (EvACall tool args) (acall remote tool args)
    else
      _ <- call (EvValidate (input_schema tool) kwargs)
                (model_validate (input_schema tool) kwargs) ;;
      call (EvACall tool kwargs) (acall remote tool kwargs)
  | None =>
    _ <- call (EvValidate (input_schema tool) kwargs)
              (model_validate (input_schema tool) kwargs) ;;
    call (EvACall tool kwargs) (acall remote tool kwargs)
  end.

(** The body of [except Exception as e:] in [_response_fn]. *)
Definition response_except (config : MCPToolConfig.t) (tool : MCPToolClient Schema)
    (tool_input : option Model) (kwargs : Dict) (e : Exn) : M Schema string :=
  if MCPToolConfig.return_exception config then
    _ <- match tool_input with
         | Some m =>
           if py_bool m
           then call (EvLogWarning (name tool) true (model_dump m)) (Return tt)
           else call (EvLogWarning (name tool) false kwargs) (Return tt)
         | None => call (EvLogWarning (name tool) false kwargs) (Return tt)
         end ;;
    ret (exn_str e)
  else raise e.

Definition _response_fn (config : MCPToolConfig.t) (tool : MCPToolClient Schema)
    (tool_input : option Model) (kwargs : Dict) : M Schema string :=
  try_except_Exception
    (response_try tool tool_input kwargs)
    (response_except config tool tool_input kwargs).

(** The transport parameters [mcp_tool] works with. *)
Record Transport : Type := mkTransport {
  t_transport_type : string;
  t_url : option string;
  t_command : option string;
  t_args : option (list string);
  t_env : option (list (string * string))
}.

(** "Get server configuration either from reference or direct config" *)
Definition resolve_transport (config : MCPToolConfig.t) : M Schema Transport :=
  match MCPToolConfig.server config with
  | Some ref =>
    server_config <- call (EvGetServer ref) (get_server remote ref) ;;
    if negb (MCPServerConfig.server_type server_config =? "mcp") then
      raise (mkExn ValueError ("Server " ++ ref ++ " is not an MCP server"))
    else
      ret {| t_transport_type := MCPServerConfig.transport_type server_config;
             t_url := MCPServerConfig.url server_config;
             t_command := MCPServerConfig.command server_config;
             t_args := MCPServerConfig.args server_config;
             t_env := MCPServerConfig.env server_config |}
  | None =>
    ret {| t_transport_type := MCPToolConfig.transport_type config;
           t_url := MCPToolConfig.url config;
           t_command := MCPToolConfig.command config;
           t_args := MCPToolConfig.args config;
           t_env := MCPToolConfig.env config |}
  end.

(** "Initialize the client": the log source and the client object. *)
Definition init_client (tr : Transport) : M Schema (string * Client) :=
  if t_transport_type tr =? "stdio" then
    let source :=
      py_str (t_command tr) ++ " " ++
      (if truthy_list (t_args tr)
       then join " " (match t_args tr with Some l => l | None => [] end)
       else "") in
    ret (source, MCPStdioClient (t_command tr) (t_args tr) (t_env tr))
  else if t_transport_type tr =? "streamable-http" then
    let source := py_str (t_url tr) in
    ret (source, MCPStreamableHTTPClient source)
  else if t_transport_type tr =? "sse" then
    let source := py_str (t_url tr) in
    ret (source, MCPSSEClient source)
  else
    raise (mkExn ValueError ("Invalid transport type: " ++ t_transport_type tr)).

(** The body of [async with client:], up to the [yield]. *)
Definition with_client (config : MCPToolConfig.t) (source : string) (client : Client)
    : M Schema (FunctionInfo Schema Model) :=
  tool <- call (EvGetTool (MCPToolConfig.mcp_tool_name config))
               (get_tool remote client (MCPToolConfig.mcp_tool_name config)) ;;
  tool <- (if truthy_str (MCPToolConfig.description config) then
             let text := py_str (MCPToolConfig.description config) in
             call (EvSetDescription text) (Return (set_description tool text))
           else ret tool) ;;
  _ <- call (EvLogInfo (name tool) source) (Return tt) ;;
  ret (mkFunctionInfo (_response_fn config tool)
                      (tool_description tool)
                      (input_schema tool)
                      [_convert_from_str tool]).

(** [mcp_tool(config, builder)] run to its [yield]: the function handed
    to the framework, or the exception setup ends with. *)
Definition mcp_tool (config : MCPToolConfig.t) : M Schema (FunctionInfo Schema Model) :=
  tr <- resolve_transport config ;;
  sc <- init_client tr ;;
  async_with (snd sc) (aenter remote (snd sc)) (with_client config (fst sc) (snd sc)).

End Wrapper.

(** ** Vocabulary of the properties *)

(** A field of the inline transport configuration is set.  [transport_type]
    always has a value (its default is ["sse"]) and is not counted. *)
Definition any_inline_field (c : MCPToolConfig.t) : bool :=
  is_not_None (MCPToolConfig.url c) || is_not_None (MCPToolConfig.command c)
  || is_not_None (MCPToolConfig.args c) || is_not_None (MCPToolConfig.env c).

(** Configuration validation ends with a [ValueError]. *)
Definition config_error {A : Type} (o : outcome A) : Prop :=
  exists msg, o = Raise (mkExn ValueError msg).

(** The input of an invocation fails schema validation: no truthy typed
    value is given, and pydantic rejects the keyword arguments with the
    [ValidationError] [e]. *)
Definition fails_validation {Schema Model : Type} `{Pydantic Schema Model}
    (tool : MCPToolClient Schema) (tool_input : option Model) (kwargs : Dict)
    (e : Exn) : Prop :=
  truthy_input tool_input = false /\
  model_validate (input_schema tool) kwargs = Raise e /\
  exn_class e = ValidationError.

(** The arguments an invocation sends to the remote tool, when its input is
    well formed: the dumped typed value, or keyword arguments that pass
    validation. *)
Definition well_formed_args {Schema Model : Type} `{Pydantic Schema Model}
    (tool : MCPToolClient Schema) (tool_input : option Model) (kwargs : Dict)
    : option Dict :=
  match tool_input with
  | Some m =>
    if py_bool m then Some (model_dump m)
    else if raises (model_validate (input_schema tool) kwargs) then None
    else Some kwargs
  | None =>
    if raises (model_validate (input_schema tool) kwargs) then None
    else Some kwargs
  end.

Definition is_validate {Schema : Type} (ev : Event Schema) : bool :=
  match ev with
  | EvValidate _ _ => true
  | _ => false
  end.

Definition is_acall {Schema : Type} (ev : Event Schema) : bool :=
  match ev with
  | EvACall _ _ => true
  | _ => false
  end.

(** Neither a validation nor a remote call. *)
Definition quiet {Schema : Type} (ev : Event Schema) : bool :=
  negb (is_validate ev) && negb (is_acall ev).

(** The transport fields of a tool configuration, seen as the server
    configuration with the same fields. *)
Definition as_server_config (server_type : string) (c : MCPToolConfig.t)
    : MCPServerConfig.t :=
  MCPServerConfig.mk server_type (MCPToolConfig.transport_type c) (MCPToolConfig.url c)
    (MCPToolConfig.command c) (MCPToolConfig.args c) (MCPToolConfig.env c).

(** The same tool configuration with another [transport_type]. *)
Definition with_transport_type (c : MCPToolConfig.t) (transport_type : string)
    : MCPToolConfig.t :=
  MCPToolConfig.mk (MCPToolConfig.server c) (MCPToolConfig.url c) transport_type
    (MCPToolConfig.command c) (MCPToolConfig.args c) (MCPToolConfig.env c)
    (MCPToolConfig.mcp_tool_name c) (MCPToolConfig.description c)
    (MCPToolConfig.return_exception c).

(** [client] is the client of the given transport type, built on the given
    fields: the stdio client on a non-empty command, or an HTTP client on a
    URL that is there and not empty. *)
Definition client_for (transport_type : string) (url command : option string)
    (args : option (list string)) (env : option (list (string * string)))
    (client : Client) : Prop :=
  match client with
  | MCPStdioClient cmd a e =>
    transport_type = "stdio" /\ cmd = command /\ truthy_str cmd = true
    /\ a = args /\ e = env
  | MCPStreamableHTTPClient u =>
    transport_type = "streamable-http" /\ url = Some u /\ u <> ""
  | MCPSSEClient u =>
    transport_type = "sse" /\ url = Some u /\ u <> ""
  end.

Definition is_warning {Schema : Type} (ev : Event Schema) : bool :=
  match ev with
  | EvLogWarning _ _ _ => true
  | _ => false
  end.

(** The failure of a [try] body is contained: it derives from [Exception]
    and [return_exception] is set. *)
Definition contained {A : Type} (config : MCPToolConfig.t) (o : outcome A) : bool :=
  match o with
  | Return _ => false
  | Raise e => derives_Exception (exn_class e) && MCPToolConfig.return_exception config
  end.

(** The first steps of [mcp_tool]: the transport parameters are resolved
    and the client object is built. *)
Definition choose_client {Schema : Type} (remote : Remote Schema) (c : MCPToolConfig.t)
    : M Schema (string * Client) :=
  tr <- resolve_transport remote c ;; init_client tr.

(** What [_response_fn] logs as the input of a failed call. *)
Definition logged_input {Schema Model : Type} `{Pydantic Schema Model}
    (tool_input : option Model) (kwargs : Dict) : Dict :=
  match tool_input with
  | Some m => if py_bool m then model_dump m else kwargs
  | None => kwargs
  end.

(** ** A concrete remote: an echo tool *)

Module Echo.

(** A schema is the list of its required fields; an instance is the
    dictionary of its fields. *)
Definition Schema : Type := list string.
Definition Model : Type := Dict.

Definition has_key (k : string) (d : Dict) : bool :=
  existsb (fun kv => fst kv =? k) d.

Definition validate (s : Schema) (d : Dict) : outcome Model :=
  match filter (fun k => negb (has_key k d)) s with
  | [] => Return d
  | k :: _ => Raise (mkExn ValidationError (k ++ ": Field required"))
  end.

(** Of JSON this example reads the empty object only. *)
Definition validate_json (s : Schema) (input_str : string) : outcome Model :=
  if input_str =? "{}" then validate s []
  else Raise (mkExn ValidationError "Invalid JSON").

#[global] Instance pydantic : Pydantic Schema Model := {|
  model_validate := validate;
  model_validate_json := validate_json;
  model_dump := fun m => m;
  py_bool := fun _ => true
|}.

Definition tool : MCPToolClient Schema :=
  {| name := "echo"; tool_description := "Echo the text"; input_schema := ["text"] |}.

Definition servers (ref : string) : outcome MCPServerConfig.t :=
  if ref =? "local" then
    Return (MCPServerConfig.mk "mcp" "stdio" None (Some "tool-server") None None)
  else if ref =? "peer" then
    Return (MCPServerConfig.mk "a2a" "sse" (Some "http://host/a2a") None None None)
  else Raise (mkExn ValueError ("Server " ++ ref ++ " not found")).

Definition find_tool (_ : Client) (tool_name : string) : outcome (MCPToolClient Schema) :=
  if tool_name =? "echo" then Return tool
  else Raise (mkExn NotFoundError ("Tool " ++ tool_name ++ " not found")).

Definition echo (_ : MCPToolClient Schema) (arguments : Dict) : outcome string :=
  match arguments with
  | (_, VStr s) :: _ => Return s
  | _ => Raise (mkExn RemoteToolError "nothing to echo")
  end.

(** A server that answers. *)
Definition reachable : Remote Schema :=
  mkRemote Schema servers (fun _ => Return tt) find_tool echo.

(** A server that was reachable at setup and is no longer at call time. *)
Definition unreachable : Remote Schema :=
  mkRemote Schema servers (fun _ => Return tt) find_tool
    (fun _ _ => Raise (mkExn TransportError "connection refused")).

(** Scenario A of the spec. *)
Definition scenario_A : MCPToolConfig.fields :=
  MCPToolConfig.mkFields None None (Some "stdio") (Some "tool-server")
    (Some ["--mode"; "x"]) None (Some "echo") None None.

(** Scenario B of the spec. *)
Definition scenario_B : MCPToolConfig.fields :=
  MCPToolConfig.mkFields None (Some "http://host/mcp") (Some "sse") (Some "x")
    None None (Some "echo") None None.

Definition stdio_config : MCPToolConfig.t :=
  MCPToolConfig.mk None None "stdio" (Some "tool-server") (Some ["--mode"; "x"]) None
    "echo" None true.

Definition sse_config (return_exception : bool) : MCPToolConfig.t :=
  MCPToolConfig.mk None (Some "http://host/mcp") "sse" None None None
    "echo" None return_exception.

Definition server_config (ref : string) : MCPToolConfig.t :=
  MCPToolConfig.mk (Some ref) None "sse" None None None "echo" None true.

End Echo.

(** ** The calculator example
    (examples/simple_calculator/src/aiq_simple_calculator/register.py)

    A Python [str] is the list of its code points.  Which code points are
    decimal digits, and with which value, is the Unicode database's matter:
    it governs both the pattern [\d] and [int()], and is a parameter here.
    So is the interpreter's limit on the number of digits in conversions
    between [int] and [str] ([sys.get_int_max_str_digits()], where [0]
    means no limit), and the text of a true division's result, which is a
    float. *)

Module Calculator.

Definition text : Type := list N.

(** A string literal. *)
Definition lit (s : string) : text :=
  map Ascii.N_of_ascii (list_ascii_of_string s).

(** The decimal numeral of an integer, with a minus sign when it is
    negative. *)
Definition numeral (z : Z) : text :=
  lit (NilZero.string_of_int (Z.to_int z)).

(** A line feed. *)
Definition nl : text := [10%N].

Inductive exc : Type :=
| ValueError
| ZeroDivisionError
| OverflowError
| IndexError
| ToolError (message : string).

Inductive result (A : Type) : Type :=
| Ok (a : A)
| Err (e : exc).
Arguments Ok {A} a.
Arguments Err {A} e.

Definition rbind {A B : Type} (r : result A) (k : A -> result B) : result B :=
  match r with
  | Ok a => k a
  | Err e => Err e
  end.

(** [if x:] for [x : str | None] *)
Definition truthy (x : option text) : bool :=
  match x with
  | Some (_ :: _) => true
  | _ => false
  end.

Inductive step_type : Type :=
| CUSTOM_START
| CUSTOM_END.

(** [CustomIntermediateStepPayload] and [CustomIntermediateStepPayloadEnd];
    [data] is the [StreamEventData] with its [input] and [output]. *)
Record payload : Type := mkPayload {
  UUID : text;
  step_name : text;
  data_input : option text;
  data_output : option text;
  event_type : step_type
}.

Inductive event : Type :=
| GetFunction (function_name : string)
| Push (step : payload)
| Invoke (function_name : string) (input : text).

(** A computation with the calls it made on the builder, the step manager
    and the functions of the builder. *)
Definition T (A : Type) : Type := (list event * result A)%type.

Definition tret {A : Type} (a : A) : T A := ([], Ok a).

Definition tbind {A B : Type} (m : T A) (k : A -> T B) : T B :=
  match m with
  | (t, Ok a) => let (t', r) := k a in ((t ++ t')%list, r)
  | (t, Err e) => (t, Err e)
  end.

Definition emit {A : Type} (ev : event) (answer : result A) : T A := ([ev], answer).

Section Interpreter.

(** [unicodedata.decimal]: the value of a decimal digit. *)
Variable decimal : N -> option Z.

(** [sys.get_int_max_str_digits()] *)
Variable int_max_str_digits : nat.

(** The text of [a / b] in an f-string, for [b] other than zero. *)
Variable truediv_text : Z -> Z -> result text.

Definition is_digit (c : N) : bool :=
  match decimal c with
  | Some _ => true
  | None => false
  end.

Definition digit_value (c : N) : Z :=
  match decimal c with
  | Some d => d
  | None => 0
  end.

(** [re.findall(r"\d+", text)]: the maximal runs of decimal digits, from
    left to right. *)
Fixpoint findall_digits (t : text) : list text :=
  match t with
  | [] => []
  | c :: rest =>
    if is_digit c then
      match rest with
      | d :: _ =>
        if is_digit d then
          match findall_digits rest with
          | run :: runs => (c :: run) :: runs
          | [] => [[c]]
          end
        else [c] :: findall_digits rest
      | [] => [[c]]
      end
    else findall_digits rest
  end.

(** The number a run of digits denotes. *)
Definition decimal_value (digits : text) : Z :=
  fold_left (fun acc c => 10 * acc + digit_value c)%Z digits 0%Z.

(** More digits than the interpreter converts. *)
Definition over_limit (digits : nat) : bool :=
  (0 <? int_max_str_digits)%nat && (int_max_str_digits <? digits)%nat.

(** [int(s)] on a run of digits. *)
Definition py_int (digits : text) : result Z :=
  if over_limit (length digits) then Err ValueError
  else Ok (decimal_value digits).

(** [str(z)], as an f-string formats an [int]: it fails when [z] has more
    digits than the limit. *)
Definition str_int (z : Z) : result text :=
  if (0 <? int_max_str_digits)%nat && (10 ^ Z.of_nat int_max_str_digits <=? Z.abs z)%Z
  then Err ValueError
  else Ok (numeral z).

(** [a / b] in an f-string. *)
Definition truediv (a b : Z) : result text :=
  if (b =? 0)%Z then Err ZeroDivisionError else truediv_text a b.

Definition validate_number_count (numbers : list text) (expected_count : Z)
    (action : text) : result (option text) :=
  if (Z.of_nat (length numbers) <? expected_count)%Z then
    rbind (str_int expected_count) (fun n =>
    Ok (Some (lit "Provide at least " ++ n ++ lit " numbers to " ++ action ++ lit "."))%list)
  else if (expected_count <? Z.of_nat (length numbers))%Z then
    rbind (str_int expected_count) (fun n =>
    Ok (Some (lit "This tool only supports " ++ action ++ lit " between " ++ n
              ++ lit " numbers."))%list)
  else Ok None.

(** [numbers[i]] *)
Definition item (numbers : list text) (i : nat) : result text :=
  match nth_error numbers i with
  | Some x => Ok x
  | None => Err IndexError
  end.

Definition _calculator_inequality (input : text) : result text :=
  let numbers := findall_digits input in
  rbind (validate_number_count numbers 2 (lit "compare")) (fun validation_error =>
  if truthy validation_error then
    Ok (match validation_error with Some m => m | None => [] end)
  else
    rbind (item numbers 0) (fun x =>
    rbind (py_int x) (fun a =>
    rbind (item numbers 1) (fun y =>
    rbind (py_int y) (fun b =>
    rbind (str_int a) (fun sa =>
    rbind (str_int b) (fun sb =>
    if (b <? a)%Z then
      Ok (lit "First number " ++ sa ++ lit " is greater than the second number " ++ sb)%list
    else if (a <? b)%Z then
      Ok (lit "First number " ++ sa ++ lit " is less than the second number " ++ sb)%list
    else
      Ok (lit "First number " ++ sa ++ lit " is equal to the second number " ++ sb)%list
    ))))))).

Definition _calculator_multiply (input : text) : result text :=
  let numbers := findall_digits input in
  rbind (validate_number_count numbers 2 (lit "multiply")) (fun validation_error =>
  if truthy validation_error then
    Ok (match validation_error with Some m => m | None => [] end)
  else
    rbind (item numbers 0) (fun x =>
    rbind (py_int x) (fun a =>
    rbind (item numbers 1) (fun y =>
    rbind (py_int y) (fun b =>
    rbind (str_int a) (fun sa =>
    rbind (str_int b) (fun sb =>
    rbind (str_int (a * b)) (fun sp =>
    Ok (lit "The product of " ++ sa ++ lit " * " ++ sb ++ lit " is " ++ sp)%list
    )))))))).

Definition _calculator_divide (input : text) : result text :=
  let numbers := findall_digits input in
  rbind (validate_number_count numbers 2 (lit "divide")) (fun validation_error =>
  if truthy validation_error then
    Ok (match validation_error with Some m => m | None => [] end)
  else
    rbind (item numbers 0) (fun x =>
    rbind (py_int x) (fun a =>
    rbind (item numbers 1) (fun y =>
    rbind (py_int y) (fun b =>
    rbind (str_int a) (fun sa =>
    rbind (str_int b) (fun sb =>
    rbind (truediv a b) (fun sq =>
    Ok (lit "The result of " ++ sa ++ lit " / " ++ sb ++ lit " is " ++ sq)%list
    )))))))).

Definition _calculator_subtract (input : text) : result text :=
  let numbers := findall_digits input in
  rbind (validate_number_count numbers 2 (lit "subtract")) (fun validation_error =>
  if truthy validation_error then
    Ok (match validation_error with Some m => m | None => [] end)
  else
    rbind (item numbers 0) (fun x =>
    rbind (py_int x) (fun a =>
    rbind (item numbers 1) (fun y =>
    rbind (py_int y) (fun b =>
    rbind (str_int a) (fun sa =>
    rbind (str_int b) (fun sb =>
    rbind (str_int (a - b)) (fun sd =>
    Ok (lit "The result of " ++ sa ++ lit " - " ++ sb ++ lit " is " ++ sd)%list
    )))))))).

(** [custom_start_tool]; [uid] is what [str(uuid.uuid4())] gives in this
    call. *)
Definition custom_start_tool (uid : text) (name : text)
    (input_data output_data : option text) : T text :=
  tbind (emit (Push (mkPayload uid name input_data output_data CUSTOM_START)) (Ok tt))
        (fun _ => tret uid).

Definition custom_end_tool (uid : text) (name : text)
    (input_data output_data : option text) : T unit :=
  emit (Push (mkPayload uid name input_data output_data CUSTOM_END)) (Ok tt).

(** The functions [simple_calculator] gets from the builder; each is what
    its [ainvoke] answers. *)
Record tools : Type := mkTools {
  multiply_tool : text -> result text;
  divide_tool : text -> result text;
  subtract_tool : text -> result text;
  inequality_tool : text -> result text;
  datetime_tool : text -> result text
}.

(** [_simple_calculator]; [step_manager] tells whether the context has a
    step manager, and [uid] is the UUID drawn in this call. *)
Definition _simple_calculator (fns : tools) (step_manager : bool) (uid : text)
    (input_message : text) : T text :=
  tbind (if step_manager
         then tbind (custom_start_tool uid (lit "datetime") (Some input_message) None)
                    (fun _ => tret tt)
         else tret tt) (fun _ =>
  tbind (emit (Invoke "current_datetime" input_message)
              (datetime_tool fns input_message)) (fun current_time =>
  tbind (if step_manager
         then custom_end_tool uid (lit "datetime") None (Some current_time)
         else tret tt) (fun _ =>
  let response := (lit "Current time: " ++ current_time ++ nl ++ nl)%list in
  let numbers := findall_digits input_message in
  if (length numbers <? 2)%nat then
    tret (response ++ lit "Error: Please provide at least 2 numbers for calculation.")%list
  else
    tbind (emit (Invoke "calculator_multiply" input_message)
                (multiply_tool fns input_message)) (fun multiply_result =>
    tbind (emit (Invoke "calculator_divide" input_message)
                (divide_tool fns input_message)) (fun divide_result =>
    tbind (emit (Invoke "calculator_subtract" input_message)
                (subtract_tool fns input_message)) (fun subtract_result =>
    tbind (emit (Invoke "calculator_inequality" input_message)
                (inequality_tool fns input_message)) (fun inequality_result =>
    tret (response ++ lit "Calculation Results:" ++ nl
          ++ multiply_result ++ nl
          ++ divide_result ++ nl
          ++ subtract_result ++ nl
          ++ inequality_result ++ nl)%list))))))).

(** [simple_calculator] up to its [yield]: the five functions are looked
    up in the builder. *)
Definition simple_calculator (get_function : string -> result (text -> result text))
    : T tools :=
  tbind (emit (GetFunction "calculator_multiply") (get_function "calculator_multiply"))
    (fun multiply =>
  tbind (emit (GetFunction "calculator_divide") (get_function "calculator_divide"))
    (fun divide =>
  tbind (emit (GetFunction "calculator_subtract") (get_function "calculator_subtract"))
    (fun subtract =>
  tbind (emit (GetFunction "calculator_inequality") (get_function "calculator_inequality"))
    (fun inequality =>
  tbind (emit (GetFunction "current_datetime") (get_function "current_datetime"))
    (fun datetime =>
  tret (mkTools multiply divide subtract inequality datetime)))))).

(** The part of [_simple_calculator] that follows the time lookup. *)
Definition calculate_all (fns : tools) (current_time input_message : text) : T text :=
  if (length (findall_digits input_message) <? 2)%nat then
    tret (lit "Current time: " ++ current_time ++ nl ++ nl
          ++ lit "Error: Please provide at least 2 numbers for calculation.")%list
  else
    tbind (emit (Invoke "calculator_multiply" input_message)
                (multiply_tool fns input_message)) (fun multiply_result =>
    tbind (emit (Invoke "calculator_divide" input_message)
                (divide_tool fns input_message)) (fun divide_result =>
    tbind (emit (Invoke "calculator_subtract" input_message)
                (subtract_tool fns input_message)) (fun subtract_result =>
    tbind (emit (Invoke "calculator_inequality" input_message)
                (inequality_tool fns input_message)) (fun inequality_result =>
    tret (lit "Current time: " ++ current_time ++ nl ++ nl
          ++ lit "Calculation Results:" ++ nl
          ++ multiply_result ++ nl
          ++ divide_result ++ nl
          ++ subtract_result ++ nl
          ++ inequality_result ++ nl)%list)))).

(** The calculators of this file, as the functions the builder hands out,
    with some function for the current time. *)
Definition own_tools (datetime : text -> result text) : tools :=
  mkTools _calculator_multiply _calculator_divide _calculator_subtract
    _calculator_inequality datetime.

End Interpreter.

Definition is_push (ev : event) : bool :=
  match ev with
  | Push _ => true
  | _ => false
  end.

Definition is_invoke (ev : event) : bool :=
  match ev with
  | Invoke _ _ => true
  | _ => false
  end.

(** The steps [_simple_calculator] pushes around the time lookup. *)
Definition start_step (uid input_message : text) : payload :=
  mkPayload uid (lit "datetime") (Some input_message) None CUSTOM_START.

Definition end_step (uid current_time : text) : payload :=
  mkPayload uid (lit "datetime") None (Some current_time) CUSTOM_END.

(** The first lines of every answer of [_simple_calculator]. *)
Definition time_header (current_time : text) : text :=
  (lit "Current time: " ++ current_time ++ nl ++ nl)%list.

End Calculator.

(** ** Remotes that fail *)

Module Faults.

(** A registry that also knows a server of a transport type that does not
    exist. *)
Definition servers (ref : string) : outcome MCPServerConfig.t :=
  if ref =? "legacy" then
    Return (MCPServerConfig.mk "mcp" "websocket" (Some "ws://host/mcp") None None None)
  else Echo.servers ref.

Definition registry : Remote Echo.Schema :=
  mkRemote Echo.Schema servers (fun _ => Return tt) Echo.find_tool Echo.echo.

(** A server that refuses the connection. *)
Definition refusing : Remote Echo.Schema :=
  mkRemote Echo.Schema Echo.servers
    (fun _ => Raise (mkExn TransportError "connection refused"))
    Echo.find_tool Echo.echo.

(** A remote call that is cancelled. *)
Definition cancelled : Remote Echo.Schema :=
  mkRemote Echo.Schema Echo.servers (fun _ => Return tt) Echo.find_tool
    (fun _ _ => Raise (mkExn CancelledError "")).

(** A configuration that names a tool the server does not have. *)
Definition missing_tool : MCPToolConfig.t :=
  MCPToolConfig.mk None (Some "http://host/mcp") "sse" None None None "nope" None true.


End Faults.

(** ** A concrete interpreter for the calculators *)

Module Desk.

(** The ASCII digits. *)
Definition decimal (c : N) : option Z :=
  if (48 <=? c)%N && (c <=? 57)%N then Some (Z.of_N c - 48)%Z else None.

(** The interpreter's default. *)
Definition int_max_str_digits : nat := 4300.

(** A stand-in for the text of the float: it is the right one for a
    quotient without remainder below 10^16 only.  The examples divide by
    nothing else than zero. *)
Definition truediv_text (a b : Z) : Calculator.result Calculator.text :=
  Calculator.Ok (Calculator.numeral (a / b) ++ Calculator.lit ".0")%list.

(** A clock. *)
Definition datetime (_ : Calculator.text) : Calculator.result Calculator.text :=
  Calculator.Ok (Calculator.lit "noon").

(** A clock that is out of order. *)
Definition no_datetime (_ : Calculator.text) : Calculator.result Calculator.text :=
  Calculator.Err (Calculator.ToolError "no clock").

Definition fns : Calculator.tools :=
  Calculator.own_tools decimal int_max_str_digits truediv_text datetime.

Definition uid : Calculator.text := Calculator.lit "1b4e28ba".

(** A number of 4301 digits. *)
Definition long_number : Calculator.text := repeat 49%N 4301.

End Desk.

(** ** Sanity checks on concrete runs *)

Example scenario_A_loads :
  MCPToolConfig.init Echo.scenario_A = Return Echo.stdio_config.
Proof. reflexivity. Qed.

Example scenario_A_setup :
  exists fi,
    mcp_tool Echo.reachable Echo.stdio_config =
      ([EvEnter (MCPStdioClient (Some "tool-server") (Some ["--mode"; "x"]) None);
        EvGetTool "echo";
        EvLogInfo "echo" "tool-server --mode x"], Return fi)
    /\ fi_input_schema fi = ["text"]
    /\ single_fn fi None [("text", VStr "hi")] =
         ([EvValidate ["text"] [("text", VStr "hi")];
           EvACall Echo.tool [("text", VStr "hi")]], Return "hi").
Proof. eexists. split; [reflexivity | split; reflexivity]. Qed.

Example invalid_kwargs_contained :
  _response_fn Echo.reachable (Echo.sse_config true) Echo.tool None [("txt", VStr "hi")] =
    ([EvValidate ["text"] [("txt", VStr "hi")];
      EvLogWarning "echo" false [("txt", VStr "hi")]],
     Return "text: Field required").
Proof. reflexivity. Qed.

Example invalid_kwargs_raised :
  _response_fn Echo.reachable (Echo.sse_config false) Echo.tool None [("txt", VStr "hi")] =
    ([EvValidate ["text"] [("txt", VStr "hi")]],
     Raise (mkExn ValidationError "text: Field required")).
Proof. reflexivity. Qed.

(** ** Configuration validation *)

Ltac by_cases_on_config c :=
  destruct c as [srv u ttype cmd a e nm d re];
  destruct srv, u, cmd, a, e; simpl in *.

Ltac config_raises := eexists; reflexivity.

Lemma stdio_not_http (s : string) :
  (s =? "streamable-http") || (s =? "sse") = true -> (s =? "stdio") = false.
Proof.
  intros Hs. apply orb_true_iff in Hs.
  destruct Hs as [Hs | Hs]; apply String.eqb_eq in Hs; subst s; reflexivity.
Qed.

Lemma server_ref_with_inline_rejected (c : MCPToolConfig.t) :
  MCPToolConfig.server c <> None -> any_inline_field c = true ->
  config_error (MCPToolConfig.model_post_init c).
Proof.
  unfold any_inline_field, config_error.
  by_cases_on_config c; intros; try discriminate; try congruence; config_raises.
Qed.

(** C4. A configuration with neither a server reference nor an inline
    transport field is rejected with a [ValueError]; so is one with both a
    server reference and an inline transport field; and an accepted
    configuration has exactly one of the two sources. *)
Theorem config_exactly_one_source (c : MCPToolConfig.t) :
  (MCPToolConfig.server c = None -> any_inline_field c = false ->
     config_error (MCPToolConfig.model_post_init c))
  /\ (MCPToolConfig.server c <> None -> any_inline_field c = true ->
     config_error (MCPToolConfig.model_post_init c))
  /\ (MCPToolConfig.model_post_init c = Return tt ->
     xorb (is_not_None (MCPToolConfig.server c)) (any_inline_field c) = true).
Proof.
  unfold any_inline_field, config_error.
  by_cases_on_config c; repeat split; intros;
    try discriminate; try congruence; try reflexivity; try config_raises.
Qed.

Lemma config_exactly_one_source_witness :
  config_error (MCPToolConfig.model_post_init
    (MCPToolConfig.mk None None "sse" None None None "echo" None true))
  /\ config_error (MCPToolConfig.model_post_init
    (MCPToolConfig.mk (Some "local") None "sse" None (Some ["-v"]) None "echo" None true))
  /\ xorb (is_not_None (MCPToolConfig.server Echo.stdio_config))
          (any_inline_field Echo.stdio_config) = true.
Proof.
  split; [| split].
  - apply (proj1 (config_exactly_one_source
      (MCPToolConfig.mk None None "sse" None None None "echo" None true))); reflexivity.
  - apply (proj1 (proj2 (config_exactly_one_source
      (MCPToolConfig.mk (Some "local") None "sse" None (Some ["-v"]) None "echo" None true))));
      [discriminate | reflexivity].
  - apply (proj2 (proj2 (config_exactly_one_source Echo.stdio_config))); reflexivity.
Defined.

(** C6. A direct configuration for the ["sse"] or ["streamable-http"]
    transport is rejected with a [ValueError] when [command], [args] or
    [env] is set, and when [url] is absent or empty; scenario B is such a
    configuration. *)
Theorem http_config_rejected (c : MCPToolConfig.t) :
  MCPToolConfig.server c = None ->
  (MCPToolConfig.transport_type c =? "streamable-http")
    || (MCPToolConfig.transport_type c =? "sse") = true ->
  ((is_not_None (MCPToolConfig.command c) || is_not_None (MCPToolConfig.args c)
      || is_not_None (MCPToolConfig.env c) = true ->
    config_error (MCPToolConfig.model_post_init c))
   /\ (truthy_str (MCPToolConfig.url c) = false ->
    config_error (MCPToolConfig.model_post_init c)))
  /\ config_error (MCPToolConfig.init Echo.scenario_B).
Proof.
  intros Hsrv Htt. pose proof (stdio_not_http _ Htt) as Hstdio.
  unfold config_error.
  split; [| config_raises].
  unfold MCPToolConfig.model_post_init.
  destruct c as [srv u ttype cmd a e nm d re]; simpl in *; subst srv.
  split; intros Hset.
  - destruct u, cmd, a, e; simpl in *; rewrite ?Hstdio, ?Htt;
      try discriminate; config_raises.
  - destruct u as [[| ch u] |], cmd, a, e; simpl in *; rewrite ?Hstdio, ?Htt;
      try discriminate; config_raises.
Qed.

Lemma http_config_rejected_witness :
  (config_error (MCPToolConfig.model_post_init
     (MCPToolConfig.mk None (Some "http://host/mcp") "sse" None None
        (Some [("KEY", "v")]) "echo" None true))
   /\ config_error (MCPToolConfig.model_post_init
     (MCPToolConfig.mk None (Some "") "streamable-http" None None None "echo" None true)))
  /\ config_error (MCPToolConfig.init Echo.scenario_B).
Proof.
  split; [split |].
  - apply (proj1 (proj1 (http_config_rejected
      (MCPToolConfig.mk None (Some "http://host/mcp") "sse" None None
         (Some [("KEY", "v")]) "echo" None true) eq_refl eq_refl))); reflexivity.
  - apply (proj2 (proj1 (http_config_rejected
      (MCPToolConfig.mk None (Some "") "streamable-http" None None None "echo" None true)
      eq_refl eq_refl))); reflexivity.
  - apply (proj2 (http_config_rejected (Echo.sse_config true) eq_refl eq_refl)).
Defined.

(** ** Setup and invocation *)

Section Properties.

Context {Schema Model : Type} `{Pydantic Schema Model}.
Variable remote : Remote Schema.

(** *** The trace monad *)

Lemma bind_Return_inv {A B : Type} (m : M Schema A) (k : A -> M Schema B) t b :
  bind m k = (t, Return b) ->
  exists t1 a t2, m = (t1, Return a) /\ k a = (t2, Return b) /\ t = (t1 ++ t2)%list.
Proof.
  destruct m as [t1 [a | e]]; simpl; [| discriminate].
  destruct (k a) as [t2 r] eqn:Hk. intros Heq. inversion Heq; subst.
  exists t1, a, t2. auto.
Qed.

Lemma async_with_Return_inv {A : Type} client enter (body : M Schema A) t a :
  async_with client enter body = (t, Return a) ->
  exists t', body = (t', Return a) /\ enter = Return tt.
Proof.
  unfold async_with, call. destruct enter as [[] | e]; simpl; [| discriminate].
  destruct body as [t' [a' | e]]; intros Heq; inversion Heq; subst.
  exists t'. auto.
Qed.

(** *** Configuration *)

(** C5. A direct ["stdio"] configuration is rejected with a [ValueError]
    when [url] is set and when [command] is absent or empty; with no
    [url] and a non-empty [command] it is accepted, whatever [args] and
    the tool name are, and the client [mcp_tool] builds from it is the
    stdio client on that command, arguments and environment. *)
Theorem stdio_config_resolution (c : MCPToolConfig.t) :
  MCPToolConfig.server c = None ->
  MCPToolConfig.transport_type c = "stdio" ->
  (MCPToolConfig.url c <> None -> config_error (MCPToolConfig.model_post_init c))
  /\ (truthy_str (MCPToolConfig.command c) = false ->
       config_error (MCPToolConfig.model_post_init c))
  /\ (MCPToolConfig.url c = None -> truthy_str (MCPToolConfig.command c) = true ->
       MCPToolConfig.model_post_init c = Return tt
       /\ exists source,
            (tr <- resolve_transport remote c ;; init_client tr) =
            ([], Return (source,
                         MCPStdioClient (MCPToolConfig.command c) (MCPToolConfig.args c)
                                        (MCPToolConfig.env c)))).
Proof.
  intros Hsrv Htt. unfold config_error, MCPToolConfig.model_post_init, resolve_transport.
  destruct c as [srv u ttype cmd a e nm d re]; simpl in *; subst srv ttype.
  repeat split; intros.
  - destruct u; [| congruence]. destruct cmd; config_raises.
  - destruct u, cmd as [[| ch cmd] |]; simpl in *; try discriminate; config_raises.
  - subst u. destruct cmd as [[| ch cmd] |]; simpl in *; try discriminate. reflexivity.
  - subst u. eexists. reflexivity.
Qed.

(** C7. With a server reference, [mcp_tool] ends with a [ValueError],
    before any client is built, when the referenced server's
    [server_type] is not ["mcp"]; and a configuration that sets [url],
    [command], [args] or [env] next to a server reference is rejected. *)
Theorem server_reference_checked (c : MCPToolConfig.t) :
  (forall ref sc,
     MCPToolConfig.server c = Some ref ->
     get_server remote ref = Return sc ->
     MCPServerConfig.server_type sc <> "mcp" ->
     mcp_tool remote c =
       ([EvGetServer ref],
        Raise (mkExn ValueError ("Server " ++ ref ++ " is not an MCP server"))))
  /\ (MCPToolConfig.server c <> None -> any_inline_field c = true ->
       config_error (MCPToolConfig.model_post_init c)).
Proof.
  split.
  - intros ref sc Hsrv Hget Hty.
    unfold mcp_tool, resolve_transport. rewrite Hsrv. unfold call. rewrite Hget.
    apply String.eqb_neq in Hty. simpl. rewrite Hty. reflexivity.
  - apply server_ref_with_inline_rejected.
Qed.

(** *** Invocation *)

Lemma response_try_falsy tool tool_input kwargs :
  truthy_input tool_input = false ->
  response_try remote tool tool_input kwargs =
    (_ <- call (EvValidate (input_schema tool) kwargs)
               (model_validate (input_schema tool) kwargs) ;;
     call (EvACall tool kwargs) (acall remote tool kwargs)).
Proof.
  unfold response_try. destruct tool_input as [m |]; simpl; [| reflexivity].
  intros ->. reflexivity.
Qed.

Lemma response_try_truthy tool tool_input kwargs :
  truthy_input tool_input = true ->
  exists m, tool_input = Some m /\
    response_try remote tool tool_input kwargs =
      call (EvACall tool (model_dump m)) (acall remote tool (model_dump m)).
Proof.
  unfold response_try. destruct tool_input as [m |]; simpl; [| discriminate].
  intros ->. exists m. auto.
Qed.

(** What the handler does with an exception it is given. *)
Lemma response_except_outcome config tool tool_input kwargs e :
  snd (response_except config tool tool_input kwargs e) =
    if MCPToolConfig.return_exception config then Return (exn_str e) else Raise e.
Proof.
  unfold response_except.
  destruct (MCPToolConfig.return_exception config); [| reflexivity].
  destruct tool_input as [m |]; [destruct (py_bool m) |]; reflexivity.
Qed.

(** An exception of the [try] body that derives from [Exception] goes to
    the handler. *)
Lemma response_fn_failure config tool tool_input kwargs t e :
  response_try remote tool tool_input kwargs = (t, Raise e) ->
  derives_Exception (exn_class e) = true ->
  snd (_response_fn remote config tool tool_input kwargs) =
    if MCPToolConfig.return_exception config then Return (exn_str e) else Raise e.
Proof.
  intros Htry Hexc. unfold _response_fn, try_except_Exception.
  rewrite Htry, Hexc.
  rewrite <- (response_except_outcome config tool tool_input kwargs e).
  destruct (response_except config tool tool_input kwargs e). reflexivity.
Qed.

(** The [try] body on well-formed input whose remote call raises. *)
Lemma response_try_remote_failure tool tool_input kwargs args e :
  well_formed_args tool tool_input kwargs = Some args ->
  acall remote tool args = Raise e ->
  exists t, response_try remote tool tool_input kwargs = (t, Raise e).
Proof.
  unfold well_formed_args, response_try, call.
  intros Hwf Hcall.
  destruct tool_input as [m |]; [destruct (py_bool m) |].
  - inversion Hwf; subst. rewrite Hcall. eexists. reflexivity.
  - destruct (model_validate (input_schema tool) kwargs); simpl in *; [| discriminate].
    inversion Hwf; subst. rewrite Hcall. eexists. reflexivity.
  - destruct (model_validate (input_schema tool) kwargs); simpl in *; [| discriminate].
    inversion Hwf; subst. rewrite Hcall. eexists. reflexivity.
Qed.

(** C1 (as amended).  A transport error of the remote call on well-formed
    input is handled like every other [Exception]: with
    [return_exception] set the invocation returns the error's text, and
    it raises the error only with [return_exception] unset. *)
Theorem transport_error_follows_flag config tool tool_input kwargs args e :
  well_formed_args tool tool_input kwargs = Some args ->
  acall remote tool args = Raise e ->
  exn_class e = TransportError ->
  snd (_response_fn remote config tool tool_input kwargs) =
    if MCPToolConfig.return_exception config then Return (exn_str e) else Raise e.
Proof.
  intros Hwf Hcall Hcls.
  destruct (response_try_remote_failure _ _ _ _ _ Hwf Hcall) as [t Htry].
  apply (response_fn_failure _ _ _ _ _ _ Htry). rewrite Hcls. reflexivity.
Qed.

(** C2. On input that fails schema validation the invocation returns the
    validation error's text when [return_exception] is set and raises the
    validation error when it is not: it raises exactly when the flag is
    false. *)
Theorem invalid_input_raises_iff_flag_false config tool tool_input kwargs e :
  fails_validation tool tool_input kwargs e ->
  (MCPToolConfig.return_exception config = true ->
     snd (_response_fn remote config tool tool_input kwargs) = Return (exn_str e))
  /\ (MCPToolConfig.return_exception config = false ->
     snd (_response_fn remote config tool tool_input kwargs) = Raise e)
  /\ (raises (snd (_response_fn remote config tool tool_input kwargs)) = true <->
     MCPToolConfig.return_exception config = false).
Proof.
  intros (Hfalsy & Hval & Hcls).
  assert (Htry : response_try remote tool tool_input kwargs =
                 ([EvValidate (input_schema tool) kwargs], Raise e)).
  { rewrite response_try_falsy by exact Hfalsy. unfold call. rewrite Hval. reflexivity. }
  assert (Hexc : derives_Exception (exn_class e) = true) by (rewrite Hcls; reflexivity).
  rewrite (response_fn_failure config _ _ _ _ _ Htry Hexc).
  destruct (MCPToolConfig.return_exception config); simpl;
    repeat split; intros; try reflexivity; try discriminate.
Qed.

(** C3. When the [try] body fails with [e] and the invocation nevertheless
    returns a string, that string is [str(e)], unchanged. *)
Theorem containment_preserves_text config tool tool_input kwargs t e s :
  response_try remote tool tool_input kwargs = (t, Raise e) ->
  snd (_response_fn remote config tool tool_input kwargs) = Return s ->
  s = exn_str e.
Proof.
  intros Htry. unfold _response_fn, try_except_Exception. rewrite Htry.
  destruct (derives_Exception (exn_class e)); [| discriminate].
  pose proof (response_except_outcome config tool tool_input kwargs e) as Hout.
  destruct (response_except config tool tool_input kwargs e) as [t' r]. simpl in *.
  subst r. destruct (MCPToolConfig.return_exception config); congruence.
Qed.

(** C10. A configuration built without [return_exception] has it set, and
    with such a configuration an invocation whose [try] body fails with
    an [Exception] returns the exception's text instead of raising. *)
Theorem return_exception_defaults_to_true kw config :
  MCPToolConfig.f_return_exception kw = None ->
  MCPToolConfig.init kw = Return config ->
  MCPToolConfig.return_exception config = true
  /\ forall tool tool_input kwargs t e,
       response_try remote tool tool_input kwargs = (t, Raise e) ->
       derives_Exception (exn_class e) = true ->
       snd (_response_fn remote config tool tool_input kwargs) = Return (exn_str e).
Proof.
  intros Hnone Hinit.
  assert (Hflag : MCPToolConfig.return_exception config = true).
  { unfold MCPToolConfig.init in Hinit. rewrite Hnone in Hinit.
    destruct (MCPToolConfig.f_mcp_tool_name kw); [| discriminate].
    destruct (negb _); [discriminate |].
    destruct (MCPToolConfig.model_post_init _); [| discriminate].
    inversion Hinit. reflexivity. }
  split; [exact Hflag |].
  intros tool tool_input kwargs t e Htry Hexc.
  rewrite (response_fn_failure config _ _ _ _ _ Htry Hexc), Hflag. reflexivity.
Qed.

(** *** Dispatch and schema *)

Lemma handler_trace_quiet config tool tool_input kwargs e :
  forallb quiet (fst (response_except config tool tool_input kwargs e)) = true.
Proof.
  unfold response_except.
  destruct (MCPToolConfig.return_exception config); [| reflexivity].
  destruct tool_input as [m |]; [destruct (py_bool m) |]; reflexivity.
Qed.

Lemma quiet_no_validate (l : list (Event Schema)) :
  forallb quiet l = true -> forallb (fun ev => negb (is_validate ev)) l = true.
Proof.
  intros Hq. rewrite forallb_forall in *. intros ev Hin.
  specialize (Hq ev Hin). unfold quiet in Hq.
  apply andb_true_iff in Hq. tauto.
Qed.

Lemma quiet_no_acall (l : list (Event Schema)) :
  forallb quiet l = true -> forallb (fun ev => negb (is_acall ev)) l = true.
Proof.
  intros Hq. rewrite forallb_forall in *. intros ev Hin.
  specialize (Hq ev Hin). unfold quiet in Hq.
  apply andb_true_iff in Hq. tauto.
Qed.

(** The trace of an invocation is the trace of the [try] body followed by
    events that are neither validations nor remote calls. *)
Lemma response_fn_trace config tool tool_input kwargs :
  exists rest,
    fst (_response_fn remote config tool tool_input kwargs) =
      (fst (response_try remote tool tool_input kwargs) ++ rest)%list
    /\ forallb quiet rest = true.
Proof.
  unfold _response_fn, try_except_Exception.
  destruct (response_try remote tool tool_input kwargs) as [t [s | e]].
  - exists []. simpl. rewrite app_nil_r. auto.
  - destruct (derives_Exception (exn_class e)).
    + pose proof (handler_trace_quiet config tool tool_input kwargs e) as Hq.
      destruct (response_except config tool tool_input kwargs e) as [t' r].
      exists t'. auto.
    + exists []. simpl. rewrite app_nil_r. auto.
Qed.

(** C9. [_response_fn] dispatches on the truth value of [tool_input].
    When it is truthy, the dumped [tool_input] is what is sent, nothing is
    validated, and the keyword arguments have no influence on the trace or
    the result.  When it is [None] or falsy, the first thing done is the
    validation of the keyword arguments against the tool's input schema;
    the remote call follows only if they pass, and is made with them. *)
Theorem dispatch_on_truthiness config tool tool_input kwargs :
  (truthy_input tool_input = true ->
     exists m rest,
       tool_input = Some m
       /\ fst (_response_fn remote config tool tool_input kwargs) =
            EvACall tool (model_dump m) :: rest
       /\ forallb quiet rest = true
       /\ forall kwargs',
            _response_fn remote config tool tool_input kwargs' =
            _response_fn remote config tool tool_input kwargs)
  /\ (truthy_input tool_input = false ->
     exists rest,
       fst (_response_fn remote config tool tool_input kwargs) =
         EvValidate (input_schema tool) kwargs :: rest
       /\ forallb (fun ev => negb (is_validate ev)) rest = true
       /\ if raises (model_validate (input_schema tool) kwargs)
          then forallb (fun ev => negb (is_acall ev)) rest = true
          else exists rest',
                 rest = EvACall tool kwargs :: rest'
                 /\ forallb (fun ev => negb (is_acall ev)) rest' = true).
Proof.
  split; intros Htruth.
  - destruct (response_try_truthy tool tool_input kwargs Htruth) as (m & -> & Htry).
    destruct (response_fn_trace config tool (Some m) kwargs) as (rest & Htr & Hq).
    rewrite Htry in Htr. simpl in Htr.
    exists m, rest. repeat split; auto.
    intros kwargs'. unfold _response_fn, response_try, response_except.
    simpl in Htruth. rewrite Htruth. reflexivity.
  - destruct (response_fn_trace config tool tool_input kwargs) as (rest & Htr & Hq).
    rewrite (response_try_falsy tool tool_input kwargs Htruth) in Htr.
    unfold call in Htr.
    destruct (model_validate (input_schema tool) kwargs) as [m | e]; simpl in *.
    + exists (EvACall tool kwargs :: rest). repeat split.
      * exact Htr.
      * simpl. apply quiet_no_validate, Hq.
      * exists rest. split; [reflexivity | apply quiet_no_acall, Hq].
    + exists rest. repeat split.
      * exact Htr.
      * apply quiet_no_validate, Hq.
      * apply quiet_no_acall, Hq.
Qed.

(** Every validation an invocation performs is against the schema of the
    tool it closes over, and on the keyword arguments it was given. *)
Lemma response_fn_validates_with config tool tool_input kwargs s d :
  In (EvValidate s d) (fst (_response_fn remote config tool tool_input kwargs)) ->
  s = input_schema tool /\ d = kwargs.
Proof.
  destruct (response_fn_trace config tool tool_input kwargs) as (rest & -> & Hq).
  intros Hin. apply in_app_or in Hin. destruct Hin as [Hin | Hin].
  - unfold response_try, call in Hin.
    destruct tool_input as [m |]; [destruct (py_bool m) |]; simpl in Hin.
    + destruct Hin as [Heq | []]. discriminate.
    + destruct (model_validate (input_schema tool) kwargs); simpl in Hin;
        repeat (destruct Hin as [Hin | Hin]; [inversion Hin; auto |]); try contradiction;
        discriminate.
    + destruct (model_validate (input_schema tool) kwargs); simpl in Hin;
        repeat (destruct Hin as [Hin | Hin]; [inversion Hin; auto |]); try contradiction;
        discriminate.
  - rewrite forallb_forall in Hq. specialize (Hq _ Hin). discriminate.
Qed.

Lemma with_client_Return_inv config source client t fi :
  with_client remote config source client = (t, Return fi) ->
  exists tool,
    get_tool remote client (MCPToolConfig.mcp_tool_name config) = Return tool
    /\ fi = (let tool' :=
               if truthy_str (MCPToolConfig.description config)
               then set_description tool (py_str (MCPToolConfig.description config))
               else tool in
             mkFunctionInfo (_response_fn remote config tool') (tool_description tool')
                            (input_schema tool') [_convert_from_str tool']).
Proof.
  unfold with_client. intros Hrun.
  apply bind_Return_inv in Hrun. destruct Hrun as (t1 & tool & t2 & Hget & Hrun & _).
  unfold call in Hget. inversion Hget as [[Ht1 Hget']]. clear Hget.
  exists tool. split; [exact Hget' |].
  apply bind_Return_inv in Hrun. destruct Hrun as (t3 & tool' & t4 & Hset & Hrun & _).
  destruct (truthy_str (MCPToolConfig.description config));
    unfold call, ret in Hset; inversion Hset; subst tool';
    simpl in Hrun; inversion Hrun; reflexivity.
Qed.

(** C8. [set_description] leaves the name and the schema of a tool as they
    are.  And the function [mcp_tool] hands out for a tool discovered by
    name exposes that tool's input schema; its converter parses with that
    schema; every validation an invocation performs is against that
    schema, an invocation without a truthy typed input starting with one;
    and the configured description, when there is one, replaces the
    exposed description only. *)
Theorem schema_round_trip :
  (forall (tool : MCPToolClient Schema) text,
     input_schema (set_description tool text) = input_schema tool
     /\ name (set_description tool text) = name tool
     /\ tool_description (set_description tool text) = text)
  /\ (forall config t (fi : FunctionInfo Schema Model),
       mcp_tool remote config = (t, Return fi) ->
       exists client tool,
         get_tool remote client (MCPToolConfig.mcp_tool_name config) = Return tool
         /\ fi_input_schema fi = input_schema tool
         /\ converters fi = [model_validate_json (fi_input_schema fi)]
         /\ fi_description fi =
              (if truthy_str (MCPToolConfig.description config)
               then py_str (MCPToolConfig.description config)
               else tool_description tool)
         /\ (forall tool_input kwargs s d,
               In (EvValidate s d) (fst (single_fn fi tool_input kwargs)) ->
               s = fi_input_schema fi /\ d = kwargs)
         /\ (forall tool_input kwargs,
               truthy_input tool_input = false ->
               exists rest,
                 fst (single_fn fi tool_input kwargs) =
                   EvValidate (fi_input_schema fi) kwargs :: rest)).
Proof.
  split; [intros tool text; repeat split |].
  intros config t fi Hrun. unfold mcp_tool in Hrun.
  apply bind_Return_inv in Hrun. destruct Hrun as (t1 & tr & t2 & _ & Hrun & _).
  apply bind_Return_inv in Hrun. destruct Hrun as (t3 & sc & t4 & _ & Hrun & _).
  apply async_with_Return_inv in Hrun. destruct Hrun as (t5 & Hrun & _).
  apply with_client_Return_inv in Hrun. destruct Hrun as (tool & Hget & ->).
  exists (snd sc), tool. split; [exact Hget |].
  set (tool' := if truthy_str (MCPToolConfig.description config)
                then set_description tool (py_str (MCPToolConfig.description config))
                else tool).
  assert (Hschema : input_schema tool' = input_schema tool).
  { unfold tool'. destruct (truthy_str _); reflexivity. }
  simpl. split; [exact Hschema |]. split; [reflexivity |].
  split; [unfold tool'; destruct (truthy_str _); reflexivity |]. split.
  - intros tool_input kwargs s d Hin.
    apply (response_fn_validates_with config tool' tool_input kwargs s d Hin).
  - intros tool_input kwargs Hfalsy.
    destruct (response_fn_trace config tool' tool_input kwargs) as (rest & Htr & _).
    rewrite (response_try_falsy tool' tool_input kwargs Hfalsy) in Htr.
    unfold call in Htr.
    destruct (model_validate (input_schema tool') kwargs); simpl in Htr;
      rewrite Htr; eexists; reflexivity.
Qed.

End Properties.

(** ** The theorems at the echo tool *)

Lemma stdio_config_resolution_witness :
  config_error (MCPToolConfig.model_post_init
    (MCPToolConfig.mk None (Some "http://host/mcp") "stdio" (Some "tool-server") None None
       "echo" None true))
  /\ config_error (MCPToolConfig.model_post_init
    (MCPToolConfig.mk None None "stdio" (Some "") (Some ["--mode"; "x"]) None
       "echo" None true))
  /\ (MCPToolConfig.model_post_init Echo.stdio_config = Return tt
      /\ exists source,
           (tr <- resolve_transport Echo.reachable Echo.stdio_config ;; init_client tr) =
           ([], Return (source,
                        MCPStdioClient (Some "tool-server") (Some ["--mode"; "x"]) None))).
Proof.
  split; [| split].
  - apply (proj1 (stdio_config_resolution Echo.reachable
      (MCPToolConfig.mk None (Some "http://host/mcp") "stdio" (Some "tool-server") None None
         "echo" None true) eq_refl eq_refl)).
    discriminate.
  - apply (proj1 (proj2 (stdio_config_resolution Echo.reachable
      (MCPToolConfig.mk None None "stdio" (Some "") (Some ["--mode"; "x"]) None
         "echo" None true) eq_refl eq_refl))).
    reflexivity.
  - apply (proj2 (proj2 (stdio_config_resolution Echo.reachable Echo.stdio_config
      eq_refl eq_refl))); reflexivity.
Defined.

Lemma server_reference_checked_witness :
  mcp_tool Echo.reachable (Echo.server_config "peer") =
    ([EvGetServer "peer"], Raise (mkExn ValueError "Server peer is not an MCP server"))
  /\ config_error (MCPToolConfig.model_post_init
    (MCPToolConfig.mk (Some "local") None "sse" None None (Some [("KEY", "v")])
       "echo" None true)).
Proof.
  split.
  - apply (proj1 (server_reference_checked Echo.reachable (Echo.server_config "peer"))
             "peer" (MCPServerConfig.mk "a2a" "sse" (Some "http://host/a2a") None None None));
      [reflexivity | reflexivity | discriminate].
  - apply (proj2 (server_reference_checked Echo.reachable
      (MCPToolConfig.mk (Some "local") None "sse" None None (Some [("KEY", "v")])
         "echo" None true)));
      [discriminate | reflexivity].
Defined.

(** C1 as stated does not hold: the server is unreachable at call time, the
    keyword arguments are valid, [return_exception] is set, and the
    transport error is not raised (its text is returned). *)
Lemma transport_error_not_propagated :
  ~ (forall args e,
       well_formed_args Echo.tool (@None Echo.Model) [("text", VStr "hi")] = Some args ->
       acall Echo.unreachable Echo.tool args = Raise e ->
       exn_class e = TransportError ->
       MCPToolConfig.return_exception (Echo.sse_config true) = true ->
       snd (_response_fn Echo.unreachable (Echo.sse_config true) Echo.tool
              (@None Echo.Model) [("text", VStr "hi")]) = Raise e).
Proof.
  intros Hclaim.
  specialize (Hclaim [("text", VStr "hi")] (mkExn TransportError "connection refused")
                     eq_refl eq_refl eq_refl eq_refl).
  discriminate Hclaim.
Qed.

Lemma transport_error_follows_flag_witness :
  snd (_response_fn Echo.unreachable (Echo.sse_config true) Echo.tool
         (@None Echo.Model) [("text", VStr "hi")]) = Return "connection refused"
  /\ snd (_response_fn Echo.unreachable (Echo.sse_config false) Echo.tool
         (@None Echo.Model) [("text", VStr "hi")]) =
       Raise (mkExn TransportError "connection refused").
Proof.
  split.
  - exact (transport_error_follows_flag Echo.unreachable (Echo.sse_config true) Echo.tool
             None [("text", VStr "hi")] [("text", VStr "hi")]
             (mkExn TransportError "connection refused") eq_refl eq_refl eq_refl).
  - exact (transport_error_follows_flag Echo.unreachable (Echo.sse_config false) Echo.tool
             None [("text", VStr "hi")] [("text", VStr "hi")]
             (mkExn TransportError "connection refused") eq_refl eq_refl eq_refl).
Defined.

Lemma invalid_input_raises_iff_flag_false_witness :
  snd (_response_fn Echo.reachable (Echo.sse_config true) Echo.tool
         (@None Echo.Model) [("txt", VStr "hi")]) = Return "text: Field required"
  /\ snd (_response_fn Echo.reachable (Echo.sse_config false) Echo.tool
         (@None Echo.Model) [("txt", VStr "hi")]) =
       Raise (mkExn ValidationError "text: Field required").
Proof.
  assert (Hinvalid : fails_validation Echo.tool (@None Echo.Model) [("txt", VStr "hi")]
                       (mkExn ValidationError "text: Field required")).
  { unfold fails_validation. repeat split; reflexivity. }
  split.
  - apply (proj1 (invalid_input_raises_iff_flag_false Echo.reachable (Echo.sse_config true)
             Echo.tool None [("txt", VStr "hi")]
             (mkExn ValidationError "text: Field required") Hinvalid)).
    reflexivity.
  - apply (proj1 (proj2 (invalid_input_raises_iff_flag_false Echo.reachable
             (Echo.sse_config false) Echo.tool None [("txt", VStr "hi")]
             (mkExn ValidationError "text: Field required") Hinvalid))).
    reflexivity.
Defined.

Lemma containment_preserves_text_witness :
  response_try Echo.reachable Echo.tool (Some [("count", VInt 3)]) [] =
    ([EvACall Echo.tool [("count", VInt 3)]], Raise (mkExn RemoteToolError "nothing to echo"))
  /\ snd (_response_fn Echo.reachable (Echo.sse_config true) Echo.tool
            (Some [("count", VInt 3)]) []) = Return "nothing to echo"
  /\ "nothing to echo" = exn_str (mkExn RemoteToolError "nothing to echo").
Proof.
  split; [reflexivity |]. split; [reflexivity |].
  exact (containment_preserves_text Echo.reachable (Echo.sse_config true) Echo.tool
           (Some [("count", VInt 3)]) []
           [EvACall Echo.tool [("count", VInt 3)]]
           (mkExn RemoteToolError "nothing to echo") "nothing to echo" eq_refl eq_refl).
Defined.

Lemma return_exception_defaults_to_true_witness :
  MCPToolConfig.return_exception Echo.stdio_config = true
  /\ snd (_response_fn Echo.unreachable Echo.stdio_config Echo.tool
            (@None Echo.Model) [("text", VStr "hi")]) = Return "connection refused".
Proof.
  split.
  - apply (proj1 (return_exception_defaults_to_true Echo.unreachable Echo.scenario_A
                    Echo.stdio_config eq_refl eq_refl)).
  - apply (proj2 (return_exception_defaults_to_true Echo.unreachable Echo.scenario_A
                    Echo.stdio_config eq_refl eq_refl)
             Echo.tool None [("text", VStr "hi")]
             [EvValidate ["text"] [("text", VStr "hi")];
              EvACall Echo.tool [("text", VStr "hi")]]
             (mkExn TransportError "connection refused")); reflexivity.
Defined.

Lemma dispatch_on_truthiness_witness :
  (exists m rest,
     Some [("text", VStr "hi")] = Some m
     /\ fst (_response_fn Echo.reachable (Echo.sse_config true) Echo.tool
               (Some [("text", VStr "hi")]) [("junk", VInt 1)]) =
          EvACall Echo.tool (model_dump m) :: rest
     /\ forallb quiet rest = true
     /\ forall kwargs',
          _response_fn Echo.reachable (Echo.sse_config true) Echo.tool
            (Some [("text", VStr "hi")]) kwargs' =
          _response_fn Echo.reachable (Echo.sse_config true) Echo.tool
            (Some [("text", VStr "hi")]) [("junk", VInt 1)])
  /\ (exists rest,
       fst (_response_fn Echo.reachable (Echo.sse_config true) Echo.tool
              (@None Echo.Model) [("junk", VInt 1)]) =
         EvValidate ["text"] [("junk", VInt 1)] :: rest
       /\ forallb (fun ev => negb (is_validate ev)) rest = true
       /\ forallb (fun ev => negb (is_acall ev)) rest = true).
Proof.
  split.
  - exact (proj1 (dispatch_on_truthiness Echo.reachable (Echo.sse_config true) Echo.tool
                    (Some [("text", VStr "hi")]) [("junk", VInt 1)]) eq_refl).
  - exact (proj2 (dispatch_on_truthiness Echo.reachable (Echo.sse_config true) Echo.tool
                    None [("junk", VInt 1)]) eq_refl).
Defined.

Lemma schema_round_trip_witness :
  exists t (fi : FunctionInfo Echo.Schema Echo.Model),
    mcp_tool Echo.reachable
      (MCPToolConfig.mk None None "stdio" (Some "tool-server") None None "echo"
         (Some "Repeat the text") true) = (t, Return fi)
    /\ fi_input_schema fi = ["text"]
    /\ fi_description fi = "Repeat the text"
    /\ exists client tool,
         get_tool Echo.reachable client "echo" = Return tool
         /\ fi_input_schema fi = input_schema tool
         /\ converters fi = [model_validate_json (fi_input_schema fi)]
         /\ fi_description fi = "Repeat the text"
         /\ (forall tool_input kwargs s d,
               In (EvValidate s d) (fst (single_fn fi tool_input kwargs)) ->
               s = fi_input_schema fi /\ d = kwargs)
         /\ (forall tool_input kwargs,
               truthy_input tool_input = false ->
               exists rest,
                 fst (single_fn fi tool_input kwargs) =
                   EvValidate (fi_input_schema fi) kwargs :: rest).
Proof.
  eexists. eexists. split; [reflexivity |]. split; [reflexivity |]. split; [reflexivity |].
  exact (proj2 (schema_round_trip Echo.reachable)
           (MCPToolConfig.mk None None "stdio" (Some "tool-server") None None "echo"
              (Some "Repeat the text") true) _ _ eq_refl).
Defined.


(** ** Further properties of the configuration classes *)

Lemma transport_literal_cases (s : string) :
  MCPToolConfig.transport_literal s = true ->
  s = "sse" \/ s = "stdio" \/ s = "streamable-http".
Proof.
  unfold MCPToolConfig.transport_literal. intros Hs.
  apply orb_true_iff in Hs. destruct Hs as [Hs | Hs].
  - apply orb_true_iff in Hs. destruct Hs as [Hs | Hs]; apply String.eqb_eq in Hs; auto.
  - apply String.eqb_eq in Hs. auto.
Qed.

Lemma init_Return_inv (kw : MCPToolConfig.fields) (c : MCPToolConfig.t) :
  MCPToolConfig.init kw = Return c ->
  MCPToolConfig.transport_literal (MCPToolConfig.transport_type c) = true
  /\ MCPToolConfig.model_post_init c = Return tt
  /\ MCPToolConfig.server c = MCPToolConfig.f_server kw
  /\ MCPToolConfig.url c = MCPToolConfig.f_url kw
  /\ MCPToolConfig.command c = MCPToolConfig.f_command kw
  /\ MCPToolConfig.args c = MCPToolConfig.f_args kw
  /\ MCPToolConfig.env c = MCPToolConfig.f_env kw
  /\ MCPToolConfig.transport_type c =
       match MCPToolConfig.f_transport_type kw with Some s => s | None => "sse" end.
Proof.
  unfold MCPToolConfig.init. intros Hinit.
  destruct (MCPToolConfig.f_mcp_tool_name kw) as [nm |]; [| discriminate].
  destruct (MCPToolConfig.transport_literal _) eqn:Hlit; simpl in Hinit; [| discriminate].
  destruct (MCPToolConfig.model_post_init _) as [[] |] eqn:Hpost; [| discriminate].
  inversion Hinit; subst c. simpl. repeat split; assumption.
Qed.

(** X1. [MCPServerConfig.model_post_init] accepts a server configuration
    with one of the three transport types exactly when it is a stdio
    configuration with a non-empty command and no URL, or an sse or
    streamable-http configuration with a non-empty URL and no command,
    arguments or environment. *)
Theorem server_config_accepted_iff (sc : MCPServerConfig.t) :
  MCPToolConfig.transport_literal (MCPServerConfig.transport_type sc) = true ->
  (MCPServerConfig.model_post_init sc = Return tt <->
   (MCPServerConfig.transport_type sc = "stdio"
    /\ MCPServerConfig.url sc = None
    /\ truthy_str (MCPServerConfig.command sc) = true)
   \/ ((MCPServerConfig.transport_type sc = "sse"
        \/ MCPServerConfig.transport_type sc = "streamable-http")
       /\ MCPServerConfig.command sc = None
       /\ MCPServerConfig.args sc = None
       /\ MCPServerConfig.env sc = None
       /\ truthy_str (MCPServerConfig.url sc) = true)).
Proof.
  intros Hlit. apply transport_literal_cases in Hlit.
  unfold MCPServerConfig.model_post_init.
  destruct sc as [st ttype u cmd a e]; simpl in *.
  destruct Hlit as [-> | [-> | ->]]; simpl;
    destruct u as [[| ch u] |], cmd as [[| ch' cmd] |], a, e; simpl;
    split; intros Hyp;
    try discriminate; try reflexivity;
    try (right; repeat split; auto; fail);
    try (left; repeat split; auto; fail);
    try (destruct Hyp as [(Ha & Hb & Hc) | ([Ha | Ha] & Hb & Hc & Hd & He)];
         simpl in *; congruence).
Qed.

Lemma server_config_accepted_iff_witness :
  MCPServerConfig.model_post_init
    (MCPServerConfig.mk "mcp" "stdio" None (Some "tool-server") (Some ["-v"]) None) = Return tt
  <-> ("stdio" = "stdio" /\ @None string = None /\ truthy_str (Some "tool-server") = true)
      \/ (("stdio" = "sse" \/ "stdio" = "streamable-http")
          /\ Some "tool-server" = None /\ Some ["-v"] = None
          /\ @None (list (string * string)) = None /\ truthy_str None = true).
Proof.
  exact (server_config_accepted_iff
           (MCPServerConfig.mk "mcp" "stdio" None (Some "tool-server") (Some ["-v"]) None)
           eq_refl).
Defined.

(** X2. A tool configuration without a server reference is validated like
    the server configuration with the same transport fields: when [url] or
    [command] is set the two validations give the same result, error text
    included, and for the three transport types one accepts exactly when
    the other does. *)
Theorem direct_config_validated_like_server (server_type : string) (c : MCPToolConfig.t) :
  MCPToolConfig.server c = None ->
  (is_not_None (MCPToolConfig.url c) || is_not_None (MCPToolConfig.command c) = true ->
   MCPToolConfig.model_post_init c =
   MCPServerConfig.model_post_init (as_server_config server_type c))
  /\ (MCPToolConfig.transport_literal (MCPToolConfig.transport_type c) = true ->
      (MCPToolConfig.model_post_init c = Return tt <->
       MCPServerConfig.model_post_init (as_server_config server_type c) = Return tt)).
Proof.
  intros Hsrv.
  unfold MCPToolConfig.model_post_init, MCPServerConfig.model_post_init, as_server_config.
  destruct c as [srv u ttype cmd a e nm d re]; simpl in *; subst srv.
  split.
  - intros Hdirect. destruct u, cmd; simpl in *; try discriminate; reflexivity.
  - intros Hlit. apply transport_literal_cases in Hlit.
    destruct Hlit as [-> | [-> | ->]]; simpl;
      destruct u as [[| ch u] |], cmd as [[| ch' cmd] |], a, e; simpl;
      split; intros Hyp; try discriminate; reflexivity.
Qed.

Lemma direct_config_validated_like_server_witness :
  (MCPToolConfig.model_post_init (Echo.sse_config true) =
   MCPServerConfig.model_post_init (as_server_config "mcp" (Echo.sse_config true)))
  /\ (MCPToolConfig.model_post_init Echo.stdio_config = Return tt <->
      MCPServerConfig.model_post_init (as_server_config "mcp" Echo.stdio_config) = Return tt).
Proof.
  split.
  - apply (proj1 (direct_config_validated_like_server "mcp" (Echo.sse_config true) eq_refl)).
    reflexivity.
  - apply (proj2 (direct_config_validated_like_server "mcp" Echo.stdio_config eq_refl)).
    reflexivity.
Defined.

(** ** Further properties of setup *)

Section Setup.

Context {Schema Model : Type} `{Pydantic Schema Model}.
Variable remote : Remote Schema.

(** Transport fields that pass the server validation give a client. *)
Lemma init_client_validated (server_type : string) (tr : Transport) :
  MCPToolConfig.transport_literal (t_transport_type tr) = true ->
  MCPServerConfig.model_post_init
    (MCPServerConfig.mk server_type (t_transport_type tr) (t_url tr) (t_command tr)
       (t_args tr) (t_env tr)) = Return tt ->
  exists source client,
    init_client (Schema := Schema) tr = ([], Return (source, client))
    /\ client_for (t_transport_type tr) (t_url tr) (t_command tr) (t_args tr) (t_env tr)
         client.
Proof.
  intros Hlit. apply transport_literal_cases in Hlit.
  unfold MCPServerConfig.model_post_init, init_client.
  destruct tr as [ttype u cmd a e]; simpl in *.
  destruct Hlit as [-> | [-> | ->]]; simpl;
    destruct u as [[| ch u] |], cmd as [[| ch' cmd] |], a, e; simpl;
    intros Hok; try discriminate;
    eexists; eexists; (split; [reflexivity |]); simpl; repeat split; discriminate.
Qed.

Lemma mcp_tool_unfold (c : MCPToolConfig.t) :
  mcp_tool remote c =
    (sc <- choose_client remote c ;;
     async_with (snd sc) (aenter remote (snd sc)) (with_client remote c (fst sc) (snd sc))).
Proof.
  unfold mcp_tool, choose_client.
  destruct (resolve_transport remote c) as [t1 [tr | e]]; simpl; [| reflexivity].
  destruct (init_client tr) as [t2 [sc | e]]; simpl; [| reflexivity].
  destruct (async_with _ _ _) as [t3 r]. rewrite app_assoc. reflexivity.
Qed.

(** X3. A tool configuration that was constructed without a server
    reference always gives a client, never the "Invalid transport type"
    error: the stdio client on its non-empty command, arguments and
    environment, or the sse or streamable-http client on its URL, which is
    there and not empty.  Nothing is asked of the builder. *)
Theorem accepted_direct_config_builds_client (kw : MCPToolConfig.fields)
    (c : MCPToolConfig.t) :
  MCPToolConfig.init kw = Return c ->
  MCPToolConfig.server c = None ->
  exists source client,
    choose_client remote c = ([], Return (source, client))
    /\ client_for (MCPToolConfig.transport_type c) (MCPToolConfig.url c)
         (MCPToolConfig.command c) (MCPToolConfig.args c) (MCPToolConfig.env c) client.
Proof.
  intros Hinit Hsrv.
  destruct (init_Return_inv kw c Hinit) as (Hlit & Hpost & _).
  assert (Hserver : MCPServerConfig.model_post_init (as_server_config "mcp" c) = Return tt).
  { unfold MCPToolConfig.model_post_init, MCPServerConfig.model_post_init,
      as_server_config in *.
    apply transport_literal_cases in Hlit.
    destruct c as [srv u ttype cmd a e nm d re]; simpl in *; subst srv.
    destruct Hlit as [-> | [-> | ->]]; simpl in *;
      destruct u as [[| ch u] |], cmd as [[| ch' cmd] |], a, e; simpl in *;
      try discriminate; reflexivity. }
  unfold choose_client, resolve_transport. rewrite Hsrv. simpl.
  destruct (init_client_validated "mcp"
              (mkTransport (MCPToolConfig.transport_type c) (MCPToolConfig.url c)
                 (MCPToolConfig.command c) (MCPToolConfig.args c) (MCPToolConfig.env c))
              Hlit Hserver) as (source & client & Hrun & Hfor).
  exists source, client. rewrite Hrun. split; [reflexivity | exact Hfor].
Qed.

(** X4. With a server reference to a validated MCP server configuration,
    the client is built from the server's transport fields, after one
    lookup of the reference. *)
Theorem validated_server_builds_client (c : MCPToolConfig.t) (ref : string)
    (sc : MCPServerConfig.t) :
  MCPToolConfig.server c = Some ref ->
  get_server remote ref = Return sc ->
  MCPServerConfig.server_type sc = "mcp" ->
  MCPToolConfig.transport_literal (MCPServerConfig.transport_type sc) = true ->
  MCPServerConfig.model_post_init sc = Return tt ->
  exists source client,
    choose_client remote c = ([EvGetServer ref], Return (source, client))
    /\ client_for (MCPServerConfig.transport_type sc) (MCPServerConfig.url sc)
         (MCPServerConfig.command sc) (MCPServerConfig.args sc) (MCPServerConfig.env sc)
         client.
Proof.
  intros Hsrv Hget Hty Hlit Hpost.
  destruct sc as [st ttype u cmd a e]. simpl in *. subst st.
  destruct (init_client_validated "mcp" (mkTransport ttype u cmd a e) Hlit Hpost)
    as (source & client & Hrun & Hfor).
  exists source, client. split; [| exact Hfor].
  unfold choose_client, resolve_transport, call. rewrite Hsrv, Hget. simpl.
  rewrite Hrun. reflexivity.
Qed.

(** X5. With a server reference, the [transport_type] of the tool
    configuration has no effect: validation and [mcp_tool] give the same
    result whatever it is. *)
Theorem transport_type_unused_with_server (c : MCPToolConfig.t) (transport_type : string) :
  MCPToolConfig.server c <> None ->
  MCPToolConfig.model_post_init (with_transport_type c transport_type) =
    MCPToolConfig.model_post_init c
  /\ mcp_tool remote (with_transport_type c transport_type) = mcp_tool remote c.
Proof.
  intros Hsrv. destruct c as [[ref |] u ttype cmd a e nm d re];
    [| exfalso; apply Hsrv; reflexivity].
  split.
  - unfold MCPToolConfig.model_post_init, with_transport_type. simpl.
    destruct u, cmd, a, e; reflexivity.
  - reflexivity.
Qed.

(** X6. A referenced MCP server whose transport type is none of the three
    ends [mcp_tool] with a [ValueError] that names the type, before any
    client is built or entered. *)
Theorem unknown_transport_type_rejected (c : MCPToolConfig.t) (ref : string)
    (sc : MCPServerConfig.t) :
  MCPToolConfig.server c = Some ref ->
  get_server remote ref = Return sc ->
  MCPServerConfig.server_type sc = "mcp" ->
  MCPToolConfig.transport_literal (MCPServerConfig.transport_type sc) = false ->
  mcp_tool remote c =
    ([EvGetServer ref],
     Raise (mkExn ValueError
              ("Invalid transport type: " ++ MCPServerConfig.transport_type sc))).
Proof.
  intros Hsrv Hget Hty Hlit.
  unfold MCPToolConfig.transport_literal in Hlit.
  apply orb_false_iff in Hlit. destruct Hlit as [Hlit Hhttp].
  apply orb_false_iff in Hlit. destruct Hlit as [Hsse Hstdio].
  unfold mcp_tool, resolve_transport, init_client, call.
  rewrite Hsrv, Hget. simpl. rewrite Hty. simpl.
  rewrite Hstdio, Hhttp, Hsse. reflexivity.
Qed.

(** X7. A failure at setup is raised to the caller whatever
    [return_exception] is: a failed lookup of the server reference, a
    client that cannot be entered, and a tool that cannot be discovered
    each end [mcp_tool] with the very exception, and nothing is done after
    it but leaving the client. *)
Theorem setup_failures_propagate (c : MCPToolConfig.t) :
  (forall ref e,
     MCPToolConfig.server c = Some ref ->
     get_server remote ref = Raise e ->
     mcp_tool remote c = ([EvGetServer ref], Raise e))
  /\ (forall t source client e,
       choose_client remote c = (t, Return (source, client)) ->
       aenter remote client = Raise e ->
       mcp_tool remote c = ((t ++ [EvEnter client])%list, Raise e))
  /\ (forall t source client e,
       choose_client remote c = (t, Return (source, client)) ->
       aenter remote client = Return tt ->
       get_tool remote client (MCPToolConfig.mcp_tool_name c) = Raise e ->
       mcp_tool remote c =
         ((t ++ [EvEnter client; EvGetTool (MCPToolConfig.mcp_tool_name c);
                 EvExit client])%list, Raise e)).
Proof.
  split; [| split].
  - intros ref e Hsrv Hget. unfold mcp_tool, resolve_transport, call.
    rewrite Hsrv, Hget. reflexivity.
  - intros t source client e Hchoose Henter.
    rewrite mcp_tool_unfold, Hchoose. simpl. unfold async_with, call.
    rewrite Henter. reflexivity.
  - intros t source client e Hchoose Henter Hget.
    rewrite mcp_tool_unfold, Hchoose. simpl. unfold async_with, with_client, call.
    rewrite Henter, Hget. reflexivity.
Qed.

(** X8. Setup neither validates input nor calls the remote tool. *)
Theorem setup_is_quiet (c : MCPToolConfig.t) :
  forallb quiet (fst (mcp_tool remote c)) = true.
Proof.
  rewrite mcp_tool_unfold. unfold choose_client, resolve_transport, call.
  assert (Hinit : forall tr, forallb quiet (fst (init_client (Schema := Schema) tr)) = true).
  { intros tr. unfold init_client.
    destruct (t_transport_type tr =? "stdio"); [reflexivity |].
    destruct (t_transport_type tr =? "streamable-http"); [reflexivity |].
    destruct (t_transport_type tr =? "sse"); reflexivity. }
  assert (Hrest : forall source client,
            forallb quiet
              (fst (async_with client (aenter remote client)
                      (with_client remote c source client))) = true).
  { intros source client. unfold async_with, with_client, call.
    destruct (aenter remote client) as [[] | e]; simpl; [| reflexivity].
    destruct (get_tool remote client (MCPToolConfig.mcp_tool_name c)) as [tool | e];
      simpl; [| reflexivity].
    destruct (truthy_str (MCPToolConfig.description c)); reflexivity. }
  assert (Hbind : forall tr : M Schema Transport,
            forallb quiet (fst tr) = true ->
            forallb quiet
              (fst (sc <- (x <- tr ;; init_client x) ;;
                    async_with (snd sc) (aenter remote (snd sc))
                      (with_client remote c (fst sc) (snd sc)))) = true).
  { intros [t1 [tr | e]] Ht1; simpl in *; [| exact Ht1].
    specialize (Hinit tr). destruct (init_client tr) as [t2 [[source client] | e]];
      simpl in *.
    - specialize (Hrest source client).
      destruct (async_with _ _ _) as [t3 r]. simpl in *.
      rewrite !forallb_app, Ht1, Hinit, Hrest. reflexivity.
    - rewrite forallb_app, Ht1, Hinit. reflexivity. }
  apply Hbind.
  destruct (MCPToolConfig.server c) as [ref |]; [| reflexivity].
  destruct (get_server remote ref) as [sc | e]; simpl; [| reflexivity].
  destruct (negb _); reflexivity.
Qed.

End Setup.

(** ** Further properties of an invocation *)

Section Invocation.

Context {Schema Model : Type} `{Pydantic Schema Model}.
Variable remote : Remote Schema.

(** The trace of the [try] body holds no warning, at most one validation
    and at most one remote call. *)
Lemma response_try_counts tool tool_input kwargs :
  let t := fst (response_try remote tool tool_input kwargs) in
  filter is_warning t = []
  /\ length (filter is_validate t) <= 1
  /\ length (filter is_acall t) <= 1.
Proof.
  unfold response_try, call.
  destruct tool_input as [m |]; [destruct (py_bool m) |]; simpl;
    try destruct (model_validate (input_schema tool) kwargs); simpl; auto.
Qed.

Lemma handler_trace config tool tool_input kwargs e :
  fst (response_except config tool tool_input kwargs e) =
    if MCPToolConfig.return_exception config
    then [EvLogWarning (name tool) (truthy_input tool_input)
            (logged_input tool_input kwargs)]
    else [].
Proof.
  unfold response_except, logged_input, truthy_input.
  destruct (MCPToolConfig.return_exception config); [| reflexivity].
  destruct tool_input as [m |]; [destruct (py_bool m) |]; reflexivity.
Qed.

(** The trace of an invocation: that of the [try] body, and the warning
    when the failure is contained. *)
Lemma response_fn_trace_eq config tool tool_input kwargs :
  fst (_response_fn remote config tool tool_input kwargs) =
    (fst (response_try remote tool tool_input kwargs) ++
     if contained config (snd (response_try remote tool tool_input kwargs))
     then [EvLogWarning (name tool) (truthy_input tool_input)
             (logged_input tool_input kwargs)]
     else [])%list.
Proof.
  unfold _response_fn, try_except_Exception, contained.
  destruct (response_try remote tool tool_input kwargs) as [t [s | e]]; simpl.
  - rewrite app_nil_r. reflexivity.
  - destruct (derives_Exception (exn_class e)); simpl.
    + pose proof (handler_trace config tool tool_input kwargs e) as Hh.
      destruct (response_except config tool tool_input kwargs e) as [t' r].
      simpl in *. subst t'.
      destruct (MCPToolConfig.return_exception config); reflexivity.
    + rewrite app_nil_r. reflexivity.
Qed.

(** X9. An exception that does not derive from [Exception] (a
    cancellation, a keyboard interrupt) is never turned into a result: it
    leaves the invocation as it is, even with [return_exception] set, and
    no warning is logged. *)
Theorem base_exception_passes_through config tool tool_input kwargs t e :
  response_try remote tool tool_input kwargs = (t, Raise e) ->
  derives_Exception (exn_class e) = false ->
  _response_fn remote config tool tool_input kwargs = (t, Raise e).
Proof.
  intros Htry Hbase. unfold _response_fn, try_except_Exception.
  rewrite Htry, Hbase. reflexivity.
Qed.

(** X10. An invocation calls the remote tool at most once and validates at
    most once: a failed call is not tried again. *)
Theorem at_most_one_remote_call config tool tool_input kwargs :
  length (filter is_acall (fst (_response_fn remote config tool tool_input kwargs))) <= 1
  /\ length (filter is_validate
               (fst (_response_fn remote config tool tool_input kwargs))) <= 1.
Proof.
  rewrite response_fn_trace_eq.
  destruct (response_try_counts tool tool_input kwargs) as (_ & Hval & Hcall).
  rewrite !filter_app.
  destruct (contained config _); simpl; rewrite !app_nil_r; auto.
Qed.

(** X11. A warning is logged exactly when a failure is contained: then it
    is the one last event, and it carries the tool's name and the input
    that was used, the dumped [tool_input] if that is truthy and the
    keyword arguments otherwise.  A successful invocation and one that
    raises log nothing. *)
Theorem warning_iff_contained config tool tool_input kwargs :
  let run := _response_fn remote config tool tool_input kwargs in
  let body := response_try remote tool tool_input kwargs in
  let warning :=
    EvLogWarning (name tool) (truthy_input tool_input) (logged_input tool_input kwargs) in
  if contained config (snd body)
  then fst run = (fst body ++ [warning])%list /\ filter is_warning (fst run) = [warning]
  else fst run = fst body /\ filter is_warning (fst run) = [].
Proof.
  cbv zeta. rewrite response_fn_trace_eq.
  destruct (response_try_counts tool tool_input kwargs) as (Hwarn & _ & _).
  destruct (contained config _).
  - split; [reflexivity |]. rewrite filter_app, Hwarn. reflexivity.
  - rewrite app_nil_r. split; [reflexivity | exact Hwarn].
Qed.

(** X12. On well-formed input whose remote call returns, the invocation
    returns the remote result unchanged, whatever [return_exception] is;
    the remote call is the last thing it does, preceded only by the
    validation of the keyword arguments when no truthy [tool_input] is
    given. *)
Theorem successful_call_returns_result config tool tool_input kwargs args s :
  well_formed_args tool tool_input kwargs = Some args ->
  acall remote tool args = Return s ->
  _response_fn remote config tool tool_input kwargs =
    ((if truthy_input tool_input then [] else [EvValidate (input_schema tool) kwargs])
       ++ [EvACall tool args], Return s)%list.
Proof.
  unfold well_formed_args, _response_fn, try_except_Exception, response_try, call,
    truthy_input.
  intros Hwf Hcall.
  destruct tool_input as [m |]; [destruct (py_bool m) |].
  - inversion Hwf; subst. rewrite Hcall. reflexivity.
  - destruct (model_validate (input_schema tool) kwargs); simpl in *; [| discriminate].
    inversion Hwf; subst. rewrite Hcall. reflexivity.
  - destruct (model_validate (input_schema tool) kwargs); simpl in *; [| discriminate].
    inversion Hwf; subst. rewrite Hcall. reflexivity.
Qed.


End Invocation.

(** ** The calculator example *)

Section CalculatorProperties.

Import Calculator.
Local Open Scope list_scope.

Variable decimal : N -> option Z.
Variable int_max_str_digits : nat.
Variable truediv_text : Z -> Z -> result text.

(** The value of a decimal digit is one of 0 to 9. *)
Hypothesis decimal_range : forall c d, decimal c = Some d -> (0 <= d <= 9)%Z.

Local Abbreviation is_digit := (is_digit decimal).
Local Abbreviation findall := (findall_digits decimal).
Local Abbreviation value := (decimal_value decimal).
Local Abbreviation over := (over_limit int_max_str_digits).
Local Abbreviation to_int := (py_int decimal int_max_str_digits).
Local Abbreviation to_str := (str_int int_max_str_digits).

(** *** The numbers of a text *)

Lemma findall_eq (c : N) (rest : text) :
  findall (c :: rest) =
    if is_digit c then
      match rest with
      | d :: _ =>
        if is_digit d then
          match findall rest with
          | run :: runs => (c :: run) :: runs
          | [] => [[c]]
          end
        else [c] :: findall rest
      | [] => [[c]]
      end
    else findall rest.
Proof. reflexivity. Qed.

Lemma findall_cons_digit c rest :
  is_digit c = true ->
  exists run runs, findall (c :: rest) = (c :: run) :: runs.
Proof.
  intros Hc. simpl. rewrite Hc.
  destruct rest as [| d rest']; [exists [], []; reflexivity |].
  destruct (is_digit d).
  - destruct (findall (d :: rest')) as [| run runs];
      [exists [], [] | exists run, runs]; reflexivity.
  - exists [], (findall (d :: rest')). reflexivity.
Qed.

Lemma findall_split (a : text) (c : N) (b : text) :
  is_digit c = false ->
  findall (a ++ c :: b) = (findall a ++ findall b)%list.
Proof.
  intros Hc. induction a as [| x a IH].
  - simpl. rewrite Hc. reflexivity.
  - change ((x :: a) ++ c :: b)%list with (x :: (a ++ c :: b))%list.
    destruct (is_digit x) eqn:Hx.
    + destruct a as [| y a'].
      * simpl. rewrite Hx, Hc. reflexivity.
      * change (findall (x :: (y :: a') ++ c :: b)) with
          (if is_digit x then
             if is_digit y then
               match findall ((y :: a') ++ c :: b) with
               | run :: runs => (x :: run) :: runs
               | [] => [[x]]
               end
             else [x] :: findall ((y :: a') ++ c :: b)
           else findall ((y :: a') ++ c :: b)).
        change (findall (x :: y :: a')) with
          (if is_digit x then
             if is_digit y then
               match findall (y :: a') with
               | run :: runs => (x :: run) :: runs
               | [] => [[x]]
               end
             else [x] :: findall (y :: a')
           else findall (y :: a')).
        rewrite Hx, IH. destruct (is_digit y) eqn:Hy; [| reflexivity].
        destruct (findall_cons_digit y a' Hy) as (run & runs & ->). reflexivity.
    + simpl. rewrite Hx. simpl in IH. rewrite IH.
      destruct a; simpl; rewrite ?Hx; reflexivity.
Qed.

Lemma findall_whole (run : text) :
  run <> [] -> forallb is_digit run = true -> findall run = [run].
Proof.
  induction run as [| c run IH]; [congruence |].
  intros _ Hall. simpl in Hall. apply andb_true_iff in Hall. destruct Hall as [Hc Hall].
  destruct run as [| d run'].
  - simpl. rewrite Hc. reflexivity.
  - assert (Hd : is_digit d = true).
    { simpl in Hall. apply andb_true_iff in Hall. tauto. }
    change (findall (c :: d :: run')) with
      (if is_digit c then
         if is_digit d then
           match findall (d :: run') with
           | r :: runs => (c :: r) :: runs
           | [] => [[c]]
           end
         else [c] :: findall (d :: run')
       else findall (d :: run')).
    rewrite Hc, Hd, IH by (congruence || exact Hall). reflexivity.
Qed.

Lemma findall_runs (t : text) :
  Forall (fun run => run <> [] /\ forallb is_digit run = true) (findall t).
Proof.
  induction t as [| c rest IH]; [constructor |].
  simpl. destruct (is_digit c) eqn:Hc; [| exact IH].
  destruct rest as [| d rest'].
  - constructor; [| constructor]. split; [discriminate | simpl; rewrite Hc; reflexivity].
  - destruct (is_digit d) eqn:Hd.
    + destruct (findall (d :: rest')) as [| run runs].
      * constructor; [| constructor].
        split; [discriminate | simpl; rewrite Hc; reflexivity].
      * inversion IH as [| ? ? [Hne Hall] Hrest]; subst.
        constructor; [| exact Hrest].
        split; [discriminate | simpl; rewrite Hc; exact Hall].
    + constructor; [| exact IH].
      split; [discriminate | simpl; rewrite Hc; reflexivity].
Qed.

Lemma findall_concat (t : text) :
  concat (findall t) = filter is_digit t.
Proof.
  induction t as [| c rest IH]; [reflexivity |].
  rewrite findall_eq. cbn [filter].
  destruct (is_digit c) eqn:Hc; [| exact IH].
  destruct rest as [| d rest']; [reflexivity |].
  destruct (is_digit d) eqn:Hd.
  - destruct (findall_cons_digit d rest' Hd) as (run & runs & Heq).
    rewrite Heq in *. rewrite <- IH. reflexivity.
  - rewrite <- IH. reflexivity.
Qed.

Lemma value_bounds_from (digits : text) (acc : Z) :
  (0 <= acc)%Z ->
  (0 <= fold_left (fun acc c => 10 * acc + digit_value decimal c) digits acc
   < (acc + 1) * 10 ^ Z.of_nat (length digits))%Z.
Proof.
  revert acc. induction digits as [| c digits IH]; intros acc Hacc.
  - simpl. lia.
  - assert (Hd : (0 <= digit_value decimal c <= 9)%Z).
    { unfold digit_value. destruct (decimal c) as [d |] eqn:Hdec; [| lia].
      exact (decimal_range c d Hdec). }
    cbn [fold_left length].
    specialize (IH (10 * acc + digit_value decimal c)%Z ltac:(lia)).
    rewrite Nat2Z.inj_succ, Z.pow_succ_r by lia.
    destruct IH as [IHlo IHhi]. split; [exact IHlo |].
    eapply Z.lt_le_trans; [exact IHhi |].
    assert (0 < 10 ^ Z.of_nat (length digits))%Z by (apply Z.pow_pos_nonneg; lia).
    nia.
Qed.

Lemma value_bounds (digits : text) :
  (0 <= value digits < 10 ^ Z.of_nat (length digits))%Z.
Proof.
  pose proof (value_bounds_from digits 0%Z ltac:(lia)) as Hb.
  unfold decimal_value. lia.
Qed.

(** X14. What the pattern finds: every number is a non-empty run of digit
    characters, the numbers taken together are the digit characters of
    the text in their order, a character that is no digit separates the
    numbers on its two sides, and a text of digits only is one number. *)
Theorem numbers_are_the_digit_runs (t : text) :
  Forall (fun run => run <> [] /\ forallb is_digit run = true) (findall t)
  /\ concat (findall t) = filter is_digit t
  /\ (forall a c b, t = (a ++ c :: b)%list -> is_digit c = false ->
        findall t = (findall a ++ findall b)%list)
  /\ (t <> [] -> forallb is_digit t = true -> findall t = [t]).
Proof.
  split; [apply findall_runs |]. split; [apply findall_concat |]. split.
  - intros a c b -> Hc. apply findall_split, Hc.
  - apply findall_whole.
Qed.

(** *** The four calculators *)

Lemma to_int_ok (x : text) :
  over (length x) = false -> to_int x = Ok (value x).
Proof. unfold py_int. intros ->. reflexivity. Qed.

Lemma to_str_ok (z : Z) :
  int_max_str_digits = 0%nat \/ (Z.abs z < 10 ^ Z.of_nat int_max_str_digits)%Z ->
  to_str z = Ok (numeral z).
Proof.
  unfold str_int. intros [-> | Hlt]; [reflexivity |].
  destruct (10 ^ Z.of_nat int_max_str_digits <=? Z.abs z)%Z eqn:Hle.
  - apply Z.leb_le in Hle. lia.
  - rewrite andb_false_r. reflexivity.
Qed.

Lemma within_limit (n : nat) :
  over n = false -> int_max_str_digits = 0%nat \/ (n <= int_max_str_digits)%nat.
Proof.
  unfold over_limit. intros Hover.
  apply andb_false_iff in Hover. destruct Hover as [Hz | Hn].
  - apply Nat.ltb_ge in Hz. left. lia.
  - apply Nat.ltb_ge in Hn. right. exact Hn.
Qed.

Lemma below_limit (z : Z) (n : nat) :
  (Z.abs z < 10 ^ Z.of_nat n)%Z ->
  int_max_str_digits = 0%nat \/ (n <= int_max_str_digits)%nat ->
  int_max_str_digits = 0%nat \/ (Z.abs z < 10 ^ Z.of_nat int_max_str_digits)%Z.
Proof.
  intros Hz [H0 | Hn]; [left; exact H0 | right].
  eapply Z.lt_le_trans; [exact Hz |].
  apply Z.pow_le_mono_r; lia.
Qed.

(** A number that [int()] converts is printed back without failure. *)
Lemma to_str_value (x : text) :
  over (length x) = false -> to_str (value x) = Ok (numeral (value x)).
Proof.
  intros Hover. apply to_str_ok.
  apply (below_limit _ (length x)); [| apply within_limit, Hover].
  pose proof (value_bounds x). lia.
Qed.

Lemma to_str_two : to_str 2 = Ok (lit "2").
Proof.
  rewrite to_str_ok; [reflexivity |].
  destruct int_max_str_digits as [| n]; [left; reflexivity | right].
  rewrite Nat2Z.inj_succ, Z.pow_succ_r by lia.
  assert (0 < 10 ^ Z.of_nat n)%Z by (apply Z.pow_pos_nonneg; lia).
  simpl Z.abs. lia.
Qed.

Lemma validate_fewer (numbers : list text) (action : text) :
  (length numbers < 2)%nat ->
  validate_number_count int_max_str_digits numbers 2 action =
    Ok (Some (lit "Provide at least 2 numbers to " ++ action ++ lit ".")).
Proof.
  intros Hlen. unfold validate_number_count.
  destruct (Z.of_nat (length numbers) <? 2)%Z eqn:Hlt;
    [| apply Z.ltb_ge in Hlt; lia].
  rewrite to_str_two. reflexivity.
Qed.

Lemma validate_more (numbers : list text) (action : text) :
  (2 < length numbers)%nat ->
  validate_number_count int_max_str_digits numbers 2 action =
    Ok (Some (lit "This tool only supports " ++ action ++ lit " between 2 numbers.")).
Proof.
  intros Hlen. unfold validate_number_count.
  destruct (Z.of_nat (length numbers) <? 2)%Z eqn:Hlt;
    [apply Z.ltb_lt in Hlt; lia |].
  destruct (2 <? Z.of_nat (length numbers))%Z eqn:Hgt;
    [| apply Z.ltb_ge in Hgt; lia].
  rewrite to_str_two. reflexivity.
Qed.

Lemma validate_two (x y : text) (action : text) :
  validate_number_count int_max_str_digits [x; y] 2 action = Ok None.
Proof. reflexivity. Qed.

Lemma calculators_refuse_more_numbers (input : text) :
  (2 < length (findall input))%nat ->
  _calculator_inequality decimal int_max_str_digits input =
    Ok (lit "This tool only supports compare between 2 numbers.")
  /\ _calculator_multiply decimal int_max_str_digits input =
    Ok (lit "This tool only supports multiply between 2 numbers.")
  /\ _calculator_divide decimal int_max_str_digits truediv_text input =
    Ok (lit "This tool only supports divide between 2 numbers.")
  /\ _calculator_subtract decimal int_max_str_digits input =
    Ok (lit "This tool only supports subtract between 2 numbers.").
Proof.
  intros Hlen.
  unfold _calculator_inequality, _calculator_multiply, _calculator_divide,
    _calculator_subtract; cbv zeta.
  rewrite !(validate_more _ _ Hlen). repeat split; reflexivity.
Qed.

(** X15. Each of the four calculators answers with a message, and neither
    converts nor computes anything, when the text holds fewer or more than
    two numbers: "Provide at least 2 numbers to ..." for fewer, "This tool
    only supports ... between 2 numbers." for more. *)
Theorem calculators_check_number_count (input : text) :
  ((length (findall input) < 2)%nat ->
   _calculator_inequality decimal int_max_str_digits input =
     Ok (lit "Provide at least 2 numbers to compare.")
   /\ _calculator_multiply decimal int_max_str_digits input =
     Ok (lit "Provide at least 2 numbers to multiply.")
   /\ _calculator_divide decimal int_max_str_digits truediv_text input =
     Ok (lit "Provide at least 2 numbers to divide.")
   /\ _calculator_subtract decimal int_max_str_digits input =
     Ok (lit "Provide at least 2 numbers to subtract."))
  /\ ((2 < length (findall input))%nat ->
   _calculator_inequality decimal int_max_str_digits input =
     Ok (lit "This tool only supports compare between 2 numbers.")
   /\ _calculator_multiply decimal int_max_str_digits input =
     Ok (lit "This tool only supports multiply between 2 numbers.")
   /\ _calculator_divide decimal int_max_str_digits truediv_text input =
     Ok (lit "This tool only supports divide between 2 numbers.")
   /\ _calculator_subtract decimal int_max_str_digits input =
     Ok (lit "This tool only supports subtract between 2 numbers.")).
Proof.
  split; intros Hlen;
    unfold _calculator_inequality, _calculator_multiply, _calculator_divide,
      _calculator_subtract; cbv zeta;
    [rewrite !(validate_fewer _ _ Hlen) | rewrite !(validate_more _ _ Hlen)];
    repeat split; reflexivity.
Qed.

Ltac two_numbers Hfind Hx Hy :=
  cbv zeta; rewrite Hfind, validate_two;
  cbn [truthy rbind item nth_error];
  rewrite (to_int_ok _ Hx); cbn [rbind];
  rewrite (to_int_ok _ Hy); cbn [rbind];
  rewrite (to_str_value _ Hx); cbn [rbind];
  rewrite (to_str_value _ Hy); cbn [rbind].

(** X16. With exactly two numbers, each within the digit limit,
    [_calculator_inequality] compares their values, not their texts, and
    names both without leading zeros; it does not fail. *)
Theorem inequality_compares_values (input x y : text) :
  findall input = [x; y] ->
  over (length x) = false ->
  over (length y) = false ->
  _calculator_inequality decimal int_max_str_digits input =
    Ok (lit "First number " ++ numeral (value x)
        ++ lit (match (value x ?= value y)%Z with
                | Gt => " is greater than the second number "
                | Lt => " is less than the second number "
                | Eq => " is equal to the second number "
                end)
        ++ numeral (value y)).
Proof.
  intros Hfind Hx Hy. unfold _calculator_inequality. two_numbers Hfind Hx Hy.
  destruct (value x ?= value y)%Z eqn:Hcmp.
  - apply Z.compare_eq in Hcmp. rewrite Hcmp, Z.ltb_irrefl. reflexivity.
  - rewrite Z.compare_lt_iff in Hcmp.
    destruct (value y <? value x)%Z eqn:Hgt; [apply Z.ltb_lt in Hgt; lia |].
    destruct (value x <? value y)%Z eqn:Hlt; [reflexivity | apply Z.ltb_ge in Hlt; lia].
  - rewrite Z.compare_gt_iff in Hcmp.
    destruct (value y <? value x)%Z eqn:Hgt; [reflexivity | apply Z.ltb_ge in Hgt; lia].
Qed.

(** X17. With exactly two numbers, each within the digit limit,
    [_calculator_subtract] gives the first minus the second, which is
    negative when the second is the larger; it does not fail. *)
Theorem subtract_gives_difference (input x y : text) :
  findall input = [x; y] ->
  over (length x) = false ->
  over (length y) = false ->
  _calculator_subtract decimal int_max_str_digits input =
    Ok (lit "The result of " ++ numeral (value x) ++ lit " - " ++ numeral (value y)
        ++ lit " is " ++ numeral (value x - value y)).
Proof.
  intros Hfind Hx Hy. unfold _calculator_subtract. two_numbers Hfind Hx Hy.
  rewrite to_str_ok; [reflexivity |].
  pose proof (value_bounds x) as Hbx. pose proof (value_bounds y) as Hby.
  destruct (within_limit _ Hx) as [H0 | Hlx]; [left; exact H0 |].
  destruct (within_limit _ Hy) as [H0 | Hly]; [left; exact H0 |].
  right.
  assert (10 ^ Z.of_nat (length x) <= 10 ^ Z.of_nat int_max_str_digits)%Z
    by (apply Z.pow_le_mono_r; lia).
  assert (10 ^ Z.of_nat (length y) <= 10 ^ Z.of_nat int_max_str_digits)%Z
    by (apply Z.pow_le_mono_r; lia).
  lia.
Qed.

(** X18. With exactly two numbers, each within the digit limit,
    [_calculator_multiply] gives their product when the product is within
    the digit limit, as it is when the two numbers have no more digits
    together than the limit; a product beyond the limit makes it raise
    [ValueError]. *)
Theorem multiply_gives_product (input x y : text) :
  findall input = [x; y] ->
  over (length x) = false ->
  over (length y) = false ->
  (int_max_str_digits = 0%nat
   \/ (value x * value y < 10 ^ Z.of_nat int_max_str_digits)%Z ->
   _calculator_multiply decimal int_max_str_digits input =
     Ok (lit "The product of " ++ numeral (value x) ++ lit " * " ++ numeral (value y)
         ++ lit " is " ++ numeral (value x * value y)))
  /\ ((length x + length y <= int_max_str_digits)%nat ->
      (value x * value y < 10 ^ Z.of_nat int_max_str_digits)%Z)
  /\ ((0 < int_max_str_digits)%nat ->
      (10 ^ Z.of_nat int_max_str_digits <= value x * value y)%Z ->
      _calculator_multiply decimal int_max_str_digits input = Err ValueError).
Proof.
  intros Hfind Hx Hy.
  pose proof (value_bounds x) as Hbx. pose proof (value_bounds y) as Hby.
  split; [| split].
  - intros Hprod. unfold _calculator_multiply. two_numbers Hfind Hx Hy.
    rewrite to_str_ok; [reflexivity |].
    destruct Hprod as [H0 | Hlt]; [left; exact H0 | right].
    rewrite Z.abs_eq by nia. exact Hlt.
  - intros Hlen.
    eapply Z.lt_le_trans with (10 ^ Z.of_nat (length x + length y))%Z.
    + rewrite Nat2Z.inj_add, Z.pow_add_r by lia. nia.
    + apply Z.pow_le_mono_r; lia.
  - intros Hpos Hbig. unfold _calculator_multiply. two_numbers Hfind Hx Hy.
    unfold str_int.
    destruct (0 <? int_max_str_digits)%nat eqn:Hz; [| apply Nat.ltb_ge in Hz; lia].
    rewrite Z.abs_eq by nia.
    destruct (10 ^ Z.of_nat int_max_str_digits <=? value x * value y)%Z eqn:Hle;
      [reflexivity | apply Z.leb_gt in Hle; lia].
Qed.

(** X19. With exactly two numbers, each within the digit limit,
    [_calculator_divide] raises [ZeroDivisionError] when the second number
    is zero, however it is written; otherwise its answer is that of the
    true division, put into the sentence. *)
Theorem divide_by_zero_raises (input x y : text) :
  findall input = [x; y] ->
  over (length x) = false ->
  over (length y) = false ->
  (value y = 0%Z ->
   _calculator_divide decimal int_max_str_digits truediv_text input = Err ZeroDivisionError)
  /\ (value y <> 0%Z ->
      _calculator_divide decimal int_max_str_digits truediv_text input =
        rbind (truediv_text (value x) (value y)) (fun quotient =>
        Ok (lit "The result of " ++ numeral (value x) ++ lit " / " ++ numeral (value y)
            ++ lit " is " ++ quotient))).
Proof.
  intros Hfind Hx Hy. split; intros Hzero;
    unfold _calculator_divide; two_numbers Hfind Hx Hy; unfold truediv.
  - rewrite Hzero. reflexivity.
  - apply Z.eqb_neq in Hzero. rewrite Hzero. reflexivity.
Qed.

(** X20. A number with more digits than the interpreter converts makes each
    of the four calculators raise [ValueError]. *)
Theorem number_beyond_digit_limit_raises (input x y : text) :
  findall input = [x; y] ->
  over (length x) = true \/ over (length y) = true ->
  _calculator_inequality decimal int_max_str_digits input = Err ValueError
  /\ _calculator_multiply decimal int_max_str_digits input = Err ValueError
  /\ _calculator_divide decimal int_max_str_digits truediv_text input = Err ValueError
  /\ _calculator_subtract decimal int_max_str_digits input = Err ValueError.
Proof.
  intros Hfind Hover.
  unfold _calculator_inequality, _calculator_multiply, _calculator_divide,
    _calculator_subtract.
  cbv zeta. rewrite Hfind, !validate_two. cbn [truthy rbind item nth_error].
  unfold py_int.
  destruct (over (length x)) eqn:Hx; [repeat split; reflexivity |].
  destruct Hover as [Hover | Hover]; [discriminate |].
  cbn [rbind]. rewrite Hover. repeat split; reflexivity.
Qed.

(** *** The calculator that calls the others *)

Local Abbreviation simple := (_simple_calculator decimal).
Local Abbreviation rest_of := (calculate_all decimal).

(** [_simple_calculator], once the time lookup has answered. *)
Lemma simple_after_time (fns : tools) (step_manager : bool)
    (uid input current_time : text) :
  datetime_tool fns input = Ok current_time ->
  simple fns step_manager uid input =
    ((if step_manager then [Push (start_step uid input)] else [])
     ++ Invoke "current_datetime" input
     :: (if step_manager then [Push (end_step uid current_time)] else [])
     ++ fst (rest_of fns current_time input),
     snd (rest_of fns current_time input)).
Proof.
  intros Htime.
  unfold _simple_calculator, calculate_all, custom_start_tool, custom_end_tool, emit, tret.
  rewrite Htime.
  destruct (length (findall input) <? 2)%nat.
  - destruct step_manager; simpl; rewrite <- ?app_assoc; reflexivity.
  - destruct (multiply_tool fns input), (divide_tool fns input),
      (subtract_tool fns input), (inequality_tool fns input), step_manager;
      simpl; rewrite <- ?app_assoc; reflexivity.
Qed.

Lemma rest_pushes_nothing (fns : tools) (current_time input : text) :
  filter is_push (fst (rest_of fns current_time input)) = [].
Proof.
  unfold calculate_all, emit, tret.
  destruct (length (findall input) <? 2)%nat; [reflexivity |].
  destruct (multiply_tool fns input), (divide_tool fns input),
    (subtract_tool fns input), (inequality_tool fns input); reflexivity.
Qed.

(** X21. The custom steps around the time lookup: with a step manager, the
    start step is pushed first, with the input message, and when the
    lookup answers the end step follows at once, under the same UUID and
    with the time as its output; no other step is pushed.  When the lookup
    raises, the start step stays without its end step and the exception
    leaves the function.  Without a step manager nothing is pushed. *)
Theorem custom_steps_around_time_lookup (fns : tools) (uid input : text) :
  match datetime_tool fns input with
  | Ok current_time =>
    exists rest,
      fst (simple fns true uid input) =
        Push (start_step uid input) :: Invoke "current_datetime" input
        :: Push (end_step uid current_time) :: rest
      /\ filter is_push rest = []
  | Err e =>
    simple fns true uid input =
      ([Push (start_step uid input); Invoke "current_datetime" input], Err e)
  end
  /\ filter is_push (fst (simple fns false uid input)) = [].
Proof.
  destruct (datetime_tool fns input) as [current_time | e] eqn:Htime.
  - rewrite !(simple_after_time fns _ uid input current_time Htime). split.
    + eexists. split; [reflexivity | apply rest_pushes_nothing].
    + cbn [fst app filter is_push]. apply rest_pushes_nothing.
  - unfold _simple_calculator, custom_start_tool, emit, tret.
    rewrite Htime. split; reflexivity.
Qed.

(** X22. With fewer than two numbers in the message, [_simple_calculator]
    answers with the time and the request for two numbers, and invokes no
    function but the time lookup. *)
Theorem simple_calculator_needs_two_numbers (fns : tools) (step_manager : bool)
    (uid input current_time : text) :
  (length (findall input) < 2)%nat ->
  datetime_tool fns input = Ok current_time ->
  snd (simple fns step_manager uid input) =
    Ok (time_header current_time
        ++ lit "Error: Please provide at least 2 numbers for calculation.")
  /\ filter is_invoke (fst (simple fns step_manager uid input)) =
       [Invoke "current_datetime" input].
Proof.
  intros Hlen Htime. rewrite (simple_after_time fns _ uid input current_time Htime).
  unfold calculate_all. apply Nat.ltb_lt in Hlen. rewrite Hlen.
  unfold time_header, tret. split.
  - simpl. rewrite <- !app_assoc. reflexivity.
  - destruct step_manager; reflexivity.
Qed.

(** X23. With two numbers or more, [_simple_calculator] invokes, after the
    time lookup, the multiply, divide, subtract and inequality functions
    in this order, each on the whole message.  The first of them to raise
    ends the run with its exception and the later ones are not invoked;
    when all answer, the result is the time, the heading and the four
    answers, one per line. *)
Theorem calculators_invoked_in_order (fns : tools) (step_manager : bool)
    (uid input current_time : text) :
  (2 <= length (findall input))%nat ->
  datetime_tool fns input = Ok current_time ->
  let run := simple fns step_manager uid input in
  let calls := filter is_invoke (fst run) in
  let time := Invoke "current_datetime" input in
  let multiply := Invoke "calculator_multiply" input in
  let divide := Invoke "calculator_divide" input in
  let subtract := Invoke "calculator_subtract" input in
  let inequality := Invoke "calculator_inequality" input in
  match multiply_tool fns input with
  | Err e => calls = [time; multiply] /\ snd run = Err e
  | Ok multiply_result =>
    match divide_tool fns input with
    | Err e => calls = [time; multiply; divide] /\ snd run = Err e
    | Ok divide_result =>
      match subtract_tool fns input with
      | Err e => calls = [time; multiply; divide; subtract] /\ snd run = Err e
      | Ok subtract_result =>
        match inequality_tool fns input with
        | Err e =>
          calls = [time; multiply; divide; subtract; inequality] /\ snd run = Err e
        | Ok inequality_result =>
          calls = [time; multiply; divide; subtract; inequality]
          /\ snd run =
               Ok (time_header current_time ++ lit "Calculation Results:" ++ nl
                   ++ multiply_result ++ nl ++ divide_result ++ nl
                   ++ subtract_result ++ nl ++ inequality_result ++ nl)
        end
      end
    end
  end.
Proof.
  intros Hlen Htime. cbv zeta.
  rewrite (simple_after_time fns _ uid input current_time Htime).
  unfold calculate_all. apply Nat.ltb_ge in Hlen. rewrite Hlen.
  unfold time_header, emit, tret.
  destruct (multiply_tool fns input), (divide_tool fns input),
    (subtract_tool fns input), (inequality_tool fns input), step_manager;
    split; simpl; rewrite <- ?app_assoc; reflexivity.
Qed.

(** X24. [_simple_calculator] over the four calculators of this file.  A
    message with more than two numbers passes its own check, and the
    answer then holds no result but four times the calculators' refusal.
    A message with exactly two numbers of which the second is zero ends
    with the [ZeroDivisionError] of the division: the multiplication has
    been invoked, the subtraction and the comparison are not. *)
Theorem simple_calculator_over_own_tools (datetime : text -> result text)
    (step_manager : bool) (uid input current_time : text) :
  datetime input = Ok current_time ->
  let fns := own_tools decimal int_max_str_digits truediv_text datetime in
  ((2 < length (findall input))%nat ->
   snd (simple fns step_manager uid input) =
     Ok (time_header current_time ++ lit "Calculation Results:" ++ nl
         ++ lit "This tool only supports multiply between 2 numbers." ++ nl
         ++ lit "This tool only supports divide between 2 numbers." ++ nl
         ++ lit "This tool only supports subtract between 2 numbers." ++ nl
         ++ lit "This tool only supports compare between 2 numbers." ++ nl))
  /\ (forall x y,
       findall input = [x; y] ->
       over (length x) = false ->
       over (length y) = false ->
       value y = 0%Z ->
       snd (simple fns step_manager uid input) = Err ZeroDivisionError
       /\ filter is_invoke (fst (simple fns step_manager uid input)) =
            [Invoke "current_datetime" input; Invoke "calculator_multiply" input;
             Invoke "calculator_divide" input]).
Proof.
  intros Htime fns.
  assert (Htime' : datetime_tool fns input = Ok current_time) by exact Htime.
  split.
  - intros Hlen.
    pose proof (calculators_refuse_more_numbers input Hlen) as (Hi & Hm & Hd & Hs).
    rewrite (simple_after_time fns _ uid input current_time Htime').
    unfold calculate_all.
    destruct (length (findall input) <? 2)%nat eqn:Hlt; [apply Nat.ltb_lt in Hlt; lia |].
    unfold fns, own_tools, emit, tret, time_header. cbn [multiply_tool divide_tool
      subtract_tool inequality_tool].
    rewrite Hi, Hm, Hd, Hs. simpl. rewrite <- !app_assoc. reflexivity.
  - intros x y Hfind Hx Hy Hzero.
    assert (Hm : exists product,
               _calculator_multiply decimal int_max_str_digits input = Ok product).
    { unfold _calculator_multiply. two_numbers Hfind Hx Hy.
      rewrite Hzero, Z.mul_0_r. rewrite to_str_ok.
      - eexists. reflexivity.
      - destruct int_max_str_digits; [left; reflexivity | right].
        simpl Z.abs. apply Z.pow_pos_nonneg; lia. }
    destruct Hm as (product & Hm).
    assert (Hd : _calculator_divide decimal int_max_str_digits truediv_text input =
                 Err ZeroDivisionError).
    { unfold _calculator_divide. two_numbers Hfind Hx Hy. unfold truediv.
      rewrite Hzero. reflexivity. }
    rewrite (simple_after_time fns _ uid input current_time Htime').
    unfold calculate_all. rewrite Hfind. cbn [length Nat.ltb Nat.leb].
    unfold fns, own_tools, emit, tret. cbn [multiply_tool divide_tool].
    rewrite Hm, Hd. destruct step_manager; split; reflexivity.
Qed.

End CalculatorProperties.


(** ** The further properties at concrete inputs *)

Lemma accepted_direct_config_builds_client_witness :
  exists source client,
    choose_client Echo.reachable Echo.stdio_config = ([], Return (source, client))
    /\ client_for "stdio" None (Some "tool-server") (Some ["--mode"; "x"]) None client.
Proof.
  exact (accepted_direct_config_builds_client Echo.reachable Echo.scenario_A
           Echo.stdio_config eq_refl eq_refl).
Defined.

Lemma validated_server_builds_client_witness :
  exists source client,
    choose_client Echo.reachable (Echo.server_config "local") =
      ([EvGetServer "local"], Return (source, client))
    /\ client_for "stdio" None (Some "tool-server") None None client.
Proof.
  exact (validated_server_builds_client Echo.reachable (Echo.server_config "local") "local"
           (MCPServerConfig.mk "mcp" "stdio" None (Some "tool-server") None None)
           eq_refl eq_refl eq_refl eq_refl eq_refl).
Defined.

Lemma transport_type_unused_with_server_witness :
  MCPToolConfig.model_post_init (with_transport_type (Echo.server_config "local") "stdio") =
    MCPToolConfig.model_post_init (Echo.server_config "local")
  /\ mcp_tool Echo.reachable (with_transport_type (Echo.server_config "local") "stdio") =
      mcp_tool Echo.reachable (Echo.server_config "local").
Proof.
  apply (transport_type_unused_with_server Echo.reachable (Echo.server_config "local")
           "stdio").
  discriminate.
Defined.

Lemma unknown_transport_type_rejected_witness :
  mcp_tool Faults.registry (Echo.server_config "legacy") =
    ([EvGetServer "legacy"],
     Raise (mkExn ValueError "Invalid transport type: websocket")).
Proof.
  exact (unknown_transport_type_rejected Faults.registry (Echo.server_config "legacy")
           "legacy"
           (MCPServerConfig.mk "mcp" "websocket" (Some "ws://host/mcp") None None None)
           eq_refl eq_refl eq_refl eq_refl).
Defined.

Lemma setup_failures_propagate_witness :
  mcp_tool Echo.reachable (Echo.server_config "unknown") =
    ([EvGetServer "unknown"], Raise (mkExn ValueError "Server unknown not found"))
  /\ mcp_tool Faults.refusing (Echo.sse_config true) =
      ([EvEnter (MCPSSEClient "http://host/mcp")],
       Raise (mkExn TransportError "connection refused"))
  /\ mcp_tool Echo.reachable Faults.missing_tool =
      ([EvEnter (MCPSSEClient "http://host/mcp"); EvGetTool "nope";
        EvExit (MCPSSEClient "http://host/mcp")],
       Raise (mkExn NotFoundError "Tool nope not found")).
Proof.
  split; [| split].
  - apply (proj1 (setup_failures_propagate Echo.reachable (Echo.server_config "unknown")));
      reflexivity.
  - apply (proj1 (proj2 (setup_failures_propagate Faults.refusing (Echo.sse_config true)))
             [] "http://host/mcp"); reflexivity.
  - apply (proj2 (proj2 (setup_failures_propagate Echo.reachable Faults.missing_tool))
             [] "http://host/mcp"); reflexivity.
Defined.

Lemma base_exception_passes_through_witness :
  _response_fn Faults.cancelled (Echo.sse_config true) Echo.tool
    (@None Echo.Model) [("text", VStr "hi")] =
    ([EvValidate ["text"] [("text", VStr "hi")]; EvACall Echo.tool [("text", VStr "hi")]],
     Raise (mkExn CancelledError "")).
Proof.
  apply (base_exception_passes_through Faults.cancelled (Echo.sse_config true) Echo.tool
           None [("text", VStr "hi")]); reflexivity.
Defined.

Lemma successful_call_returns_result_witness :
  _response_fn Echo.reachable (Echo.sse_config false) Echo.tool
    (@None Echo.Model) [("text", VStr "hi")] =
    ([EvValidate ["text"] [("text", VStr "hi")]; EvACall Echo.tool [("text", VStr "hi")]],
     Return "hi").
Proof.
  apply (successful_call_returns_result Echo.reachable (Echo.sse_config false) Echo.tool
           None [("text", VStr "hi")] [("text", VStr "hi")] "hi"); reflexivity.
Defined.


Lemma Desk_decimal_range (c : N) (d : Z) :
  Desk.decimal c = Some d -> (0 <= d <= 9)%Z.
Proof.
  unfold Desk.decimal.
  destruct (48 <=? c)%N eqn:Hlo; [| discriminate].
  destruct (c <=? 57)%N eqn:Hhi; [| discriminate].
  simpl. intros Heq. inversion Heq; subst d.
  apply N.leb_le in Hlo, Hhi. lia.
Qed.

Lemma numbers_are_the_digit_runs_witness :
  Calculator.findall_digits Desk.decimal (Calculator.lit "1.5") =
    (Calculator.findall_digits Desk.decimal (Calculator.lit "1")
     ++ Calculator.findall_digits Desk.decimal (Calculator.lit "5"))%list
  /\ Calculator.findall_digits Desk.decimal (Calculator.lit "007") = [Calculator.lit "007"].
Proof.
  split.
  - exact (proj1 (proj2 (proj2 (numbers_are_the_digit_runs Desk.decimal
                                  (Calculator.lit "1.5"))))
             (Calculator.lit "1") 46%N (Calculator.lit "5") eq_refl eq_refl).
  - apply (proj2 (proj2 (proj2 (numbers_are_the_digit_runs Desk.decimal
                                  (Calculator.lit "007")))));
      [discriminate | reflexivity].
Defined.

Lemma calculators_check_number_count_witness :
  Calculator._calculator_multiply Desk.decimal Desk.int_max_str_digits
    (Calculator.lit "double 21") =
    Calculator.Ok (Calculator.lit "Provide at least 2 numbers to multiply.")
  /\ Calculator._calculator_inequality Desk.decimal Desk.int_max_str_digits
    (Calculator.lit "1 2 3") =
    Calculator.Ok (Calculator.lit "This tool only supports compare between 2 numbers.").
Proof.
  split.
  - apply (proj1 (calculators_check_number_count Desk.decimal Desk.int_max_str_digits
                    Desk.truediv_text (Calculator.lit "double 21"))).
    vm_compute. lia.
  - apply (proj2 (calculators_check_number_count Desk.decimal Desk.int_max_str_digits
                    Desk.truediv_text (Calculator.lit "1 2 3"))).
    vm_compute. lia.
Defined.

Lemma inequality_compares_values_witness :
  Calculator._calculator_inequality Desk.decimal Desk.int_max_str_digits
    (Calculator.lit "is 007 more than 10?") =
    Calculator.Ok (Calculator.lit "First number 7 is less than the second number 10").
Proof.
  exact (inequality_compares_values Desk.decimal Desk.int_max_str_digits Desk_decimal_range
           (Calculator.lit "is 007 more than 10?") (Calculator.lit "007")
           (Calculator.lit "10") eq_refl eq_refl eq_refl).
Defined.

Lemma subtract_gives_difference_witness :
  Calculator._calculator_subtract Desk.decimal Desk.int_max_str_digits
    (Calculator.lit "3 minus 10") =
    Calculator.Ok (Calculator.lit "The result of 3 - 10 is -7").
Proof.
  exact (subtract_gives_difference Desk.decimal Desk.int_max_str_digits Desk_decimal_range
           (Calculator.lit "3 minus 10") (Calculator.lit "3") (Calculator.lit "10")
           eq_refl eq_refl eq_refl).
Defined.

Lemma multiply_gives_product_witness :
  Calculator._calculator_multiply Desk.decimal Desk.int_max_str_digits
    (Calculator.lit "6 times 7") =
    Calculator.Ok (Calculator.lit "The product of 6 * 7 is 42").
Proof.
  apply (proj1 (multiply_gives_product Desk.decimal Desk.int_max_str_digits
                  Desk_decimal_range (Calculator.lit "6 times 7") (Calculator.lit "6")
                  (Calculator.lit "7") eq_refl eq_refl eq_refl)).
  right. vm_compute. reflexivity.
Defined.

Lemma divide_by_zero_raises_witness :
  Calculator._calculator_divide Desk.decimal Desk.int_max_str_digits Desk.truediv_text
    (Calculator.lit "12 / 000") = Calculator.Err Calculator.ZeroDivisionError.
Proof.
  apply (proj1 (divide_by_zero_raises Desk.decimal Desk.int_max_str_digits
                  Desk.truediv_text Desk_decimal_range (Calculator.lit "12 / 000")
                  (Calculator.lit "12") (Calculator.lit "000") eq_refl eq_refl eq_refl)).
  reflexivity.
Defined.

Lemma number_beyond_digit_limit_raises_witness :
  Calculator._calculator_subtract Desk.decimal Desk.int_max_str_digits
    (Desk.long_number ++ 32%N :: Calculator.lit "2")%list =
    Calculator.Err Calculator.ValueError.
Proof.
  apply (number_beyond_digit_limit_raises Desk.decimal Desk.int_max_str_digits
           Desk.truediv_text (Desk.long_number ++ 32%N :: Calculator.lit "2")%list
           Desk.long_number (Calculator.lit "2")).
  - vm_compute. reflexivity.
  - left. vm_compute. reflexivity.
Defined.

Lemma custom_steps_around_time_lookup_witness :
  (exists rest,
     fst (Calculator._simple_calculator Desk.decimal Desk.fns true Desk.uid
            (Calculator.lit "6 and 3")) =
       Calculator.Push (Calculator.start_step Desk.uid (Calculator.lit "6 and 3"))
       :: Calculator.Invoke "current_datetime" (Calculator.lit "6 and 3")
       :: Calculator.Push (Calculator.end_step Desk.uid (Calculator.lit "noon")) :: rest
     /\ filter Calculator.is_push rest = [])
  /\ Calculator._simple_calculator Desk.decimal
       (Calculator.own_tools Desk.decimal Desk.int_max_str_digits Desk.truediv_text
          Desk.no_datetime) true Desk.uid (Calculator.lit "6 and 3") =
     ([Calculator.Push (Calculator.start_step Desk.uid (Calculator.lit "6 and 3"));
       Calculator.Invoke "current_datetime" (Calculator.lit "6 and 3")],
      Calculator.Err (Calculator.ToolError "no clock")).
Proof.
  split.
  - exact (proj1 (custom_steps_around_time_lookup Desk.decimal Desk.fns Desk.uid
                    (Calculator.lit "6 and 3"))).
  - exact (proj1 (custom_steps_around_time_lookup Desk.decimal
                    (Calculator.own_tools Desk.decimal Desk.int_max_str_digits
                       Desk.truediv_text Desk.no_datetime)
                    Desk.uid (Calculator.lit "6 and 3"))).
Defined.

Lemma simple_calculator_needs_two_numbers_witness :
  snd (Calculator._simple_calculator Desk.decimal Desk.fns true Desk.uid
         (Calculator.lit "double 21")) =
    Calculator.Ok
      (Calculator.time_header (Calculator.lit "noon")
       ++ Calculator.lit "Error: Please provide at least 2 numbers for calculation.")%list
  /\ filter Calculator.is_invoke
       (fst (Calculator._simple_calculator Desk.decimal Desk.fns true Desk.uid
               (Calculator.lit "double 21"))) =
     [Calculator.Invoke "current_datetime" (Calculator.lit "double 21")].
Proof.
  apply (simple_calculator_needs_two_numbers Desk.decimal Desk.fns true Desk.uid
           (Calculator.lit "double 21") (Calculator.lit "noon")).
  - vm_compute. lia.
  - reflexivity.
Defined.

Lemma calculators_invoked_in_order_witness :
  filter Calculator.is_invoke
    (fst (Calculator._simple_calculator Desk.decimal Desk.fns false Desk.uid
            (Calculator.lit "6 and 3"))) =
    [Calculator.Invoke "current_datetime" (Calculator.lit "6 and 3");
     Calculator.Invoke "calculator_multiply" (Calculator.lit "6 and 3");
     Calculator.Invoke "calculator_divide" (Calculator.lit "6 and 3");
     Calculator.Invoke "calculator_subtract" (Calculator.lit "6 and 3");
     Calculator.Invoke "calculator_inequality" (Calculator.lit "6 and 3")]
  /\ snd (Calculator._simple_calculator Desk.decimal Desk.fns false Desk.uid
            (Calculator.lit "6 and 3")) =
     Calculator.Ok
       (Calculator.time_header (Calculator.lit "noon")
        ++ Calculator.lit "Calculation Results:" ++ Calculator.nl
        ++ Calculator.lit "The product of 6 * 3 is 18" ++ Calculator.nl
        ++ Calculator.lit "The result of 6 / 3 is 2.0" ++ Calculator.nl
        ++ Calculator.lit "The result of 6 - 3 is 3" ++ Calculator.nl
        ++ Calculator.lit "First number 6 is greater than the second number 3"
        ++ Calculator.nl)%list.
Proof.
  apply (calculators_invoked_in_order Desk.decimal Desk.fns false Desk.uid
           (Calculator.lit "6 and 3") (Calculator.lit "noon")).
  - vm_compute. lia.
  - reflexivity.
Defined.

Lemma simple_calculator_over_own_tools_witness :
  snd (Calculator._simple_calculator Desk.decimal Desk.fns true Desk.uid
         (Calculator.lit "1 2 3")) =
    Calculator.Ok
      (Calculator.time_header (Calculator.lit "noon")
       ++ Calculator.lit "Calculation Results:" ++ Calculator.nl
       ++ Calculator.lit "This tool only supports multiply between 2 numbers."
       ++ Calculator.nl
       ++ Calculator.lit "This tool only supports divide between 2 numbers."
       ++ Calculator.nl
       ++ Calculator.lit "This tool only supports subtract between 2 numbers."
       ++ Calculator.nl
       ++ Calculator.lit "This tool only supports compare between 2 numbers."
       ++ Calculator.nl)%list
  /\ snd (Calculator._simple_calculator Desk.decimal Desk.fns true Desk.uid
            (Calculator.lit "12 / 000")) = Calculator.Err Calculator.ZeroDivisionError.
Proof.
  split.
  - apply (proj1 (simple_calculator_over_own_tools Desk.decimal Desk.int_max_str_digits
                    Desk.truediv_text Desk_decimal_range Desk.datetime true Desk.uid
                    (Calculator.lit "1 2 3") (Calculator.lit "noon") eq_refl)).
    vm_compute. lia.
  - apply (proj2 (simple_calculator_over_own_tools Desk.decimal Desk.int_max_str_digits
                    Desk.truediv_text Desk_decimal_range Desk.datetime true Desk.uid
                    (Calculator.lit "12 / 000") (Calculator.lit "noon") eq_refl)
             (Calculator.lit "12") (Calculator.lit "000")); reflexivity.
Defined.
